(** * A model of app.py: the Goodiebox CAC prediction service

    The service has two routes and a start-up block:
    - [box_score]     POST /predict_box_score, which calls [predict_box_cac];
    - [health_check]  GET /health;
    - [main]          the [if __name__ == '__main__'] block.

    Python values are modelled as follows.
    - [str] is a Rocq [string], one character per code point, so the model
      covers text over U+0000..U+00FF. The one code point above that range
      in the program's own text, in the prompt, is a piece of its own.
    - [float] is IEEE 754 binary64, taken from the standard library's
      [SpecFloat] with [prec = 53] and [emax = 1024].
    - [dict] is a [gmap] keyed by [string]; [list] is a [list].
    - an exception is a value of [exn]; a computation that may raise
      returns a [result].
    - an f-string is kept as the list of its pieces ([fstring]); [str()] of a
      value that is not already a string is not unfolded.
    - the calls of [requests.post] are recorded in a log, and their outcomes
      are given by the environment ([remote]).

    The calls to [logger] change no result and are left out. *)

From Stdlib Require Import ZArith List String Ascii Bool Lia.
From Stdlib Require Import SpecFloat DecimalString.
From stdpp Require Import gmap strings.

Local Open Scope string_scope.
Local Open Scope list_scope.
Local Open Scope Z_scope.

(** ** str *)

Module PyStr.

Definition code (c : ascii) : Z := Z.of_N (N_of_ascii c).

(** [str.isspace] on one character, for code points below U+0100:
    TAB..CR, FS..US, SPACE, NEL and NBSP. *)
Definition isspace (c : ascii) : bool :=
  let n := code c in
  ((9 <=? n) && (n <=? 13)) || ((28 <=? n) && (n <=? 32))
  || (n =? 133) || (n =? 160).

Fixpoint lstrip (s : string) : string :=
  match s with
  | String c s' => if isspace c then lstrip s' else s
  | EmptyString => EmptyString
  end.

Fixpoint rstrip (s : string) : string :=
  match s with
  | EmptyString => EmptyString
  | String c s' =>
      match rstrip s' with
      | EmptyString => if isspace c then EmptyString else String c EmptyString
      | r => String c r
      end
  end.

(** [s.strip()] *)
Definition strip (s : string) : string := rstrip (lstrip s).

Fixpoint startswith (p s : string) : bool :=
  match p, s with
  | EmptyString, _ => true
  | String a p', String b s' => Ascii.eqb a b && startswith p' s'
  | String _ _, EmptyString => false
  end.

(** [p in s] for two strings: [p] occurs in [s]. *)
Fixpoint contains (p s : string) : bool :=
  startswith p s ||
  match s with
  | EmptyString => false
  | String _ s' => contains p s'
  end.

Definition is_digit (c : ascii) : bool := (48 <=? code c) && (code c <=? 57).

Definition digit_value (c : ascii) : Z := code c - 48.

(** ASCII lower case, as the C helpers that match [inf] and [nan] use. *)
Definition lower (c : ascii) : ascii :=
  if (65 <=? code c) && (code c <=? 90)
  then ascii_of_N (Z.to_N (code c + 32)) else c.

Fixpoint lower_string (s : string) : string :=
  match s with
  | EmptyString => EmptyString
  | String c s' => String (lower c) (lower_string s')
  end.

(** Decimal numeral of a natural number, as [str(n)] prints it. *)
Definition decimal (n : Z) : string :=
  NilZero.string_of_uint (N.to_uint (Z.to_N n)).

End PyStr.

(** ** Exceptions and results *)

(** The exception classes that occur. Each is a subclass of [Exception].
    Where the interpreter raises, the text of the exception is the one of
    CPython 3.11. *)
Inductive exn_class :=
| Exception
| ValueError
| JSONDecodeError
| ZeroDivisionError
| AttributeError
| IndexError
| KeyError
| TypeError
| RequestException
| OverflowError
| BadRequest
| UnsupportedMediaType.

(** [issubclass(c, ValueError)] *)
Definition is_ValueError (c : exn_class) : bool :=
  match c with
  | ValueError | JSONDecodeError => true
  | _ => false
  end.

(** ** float *)

Module PyFloat.

Definition prec : Z := 53.
Definition emax : Z := 1024.

Abbreviation float := spec_float.

Definition add : float -> float -> float := SFadd prec emax.
Definition sub : float -> float -> float := SFsub prec emax.
Definition div : float -> float -> float := SFdiv prec emax.
Definition abs : float -> float := SFabs.
Definition ltb : float -> float -> bool := SFltb.
Definition leb : float -> float -> bool := SFleb.

Definition zero : float := S754_zero false.

(** [float(n)] for an integer [n], rounded to nearest-even. *)
Definition of_Z (n : Z) : float := binary_normalize prec emax n 0 false.

Definition is_finite (x : float) : bool :=
  match x with
  | S754_zero _ | S754_finite _ _ _ => true
  | _ => false
  end.

Definition is_zero (x : float) : bool :=
  match x with
  | S754_zero _ => true
  | _ => false
  end.

(** The double nearest to [(-1)^neg * m * 10^e10] (ties to even): what
    [strtod] returns for the digits [m] and the decimal exponent [e10].
    For a negative exponent the quotient [m / 10^(-e10)] is rounded once,
    by [SFdiv] applied to the two integers. *)
Definition of_decimal (neg : bool) (m : Z) (e10 : Z) : float :=
  match m with
  | Zpos p =>
      if 0 <=? e10
      then binary_normalize prec emax
             (cond_Zopp neg (Zpos p * 10 ^ e10)) 0 false
      else div (S754_finite neg p 0)
               (S754_finite false (Z.to_pos (10 ^ (- e10))) 0)
  | _ => S754_zero neg
  end.

End PyFloat.

Import PyFloat.

(** ** JSON values, f-strings and exceptions *)

(** A decoded JSON document, as [json.loads] builds it: [JNull] is [None]. *)
#[warnings="-register-all"]
Inductive jvalue :=
| JNull
| JBool (b : bool)
| JInt (n : Z)
| JFloat (x : float)
| JStr (s : string)
| JArr (l : list jvalue)
| JObj (m : gmap string jvalue).

(** A piece of an f-string: literal characters, one character with a code
    point above U+00FF, [{v}] for a value [v] that is not a string, or the
    [repr] of a string. *)
Inductive fragment :=
| Lit (s : string)
| Chr (code_point : Z)
| Fmt (v : jvalue)
| FmtRepr (s : string).

Definition fstring := list fragment.

(** [f"{v}"]: a string stands for itself. *)
Definition fmt (v : jvalue) : fstring :=
  match v with
  | JStr s => [Lit s]
  | _ => [Fmt v]
  end.

Record exn := mk_exn { exn_cls : exn_class; exn_str : fstring }.

Inductive result (A : Type) :=
| Ok (a : A)
| Raise (e : exn).
Arguments Ok {A} a.
Arguments Raise {A} e.

Definition result_bind {A B} (r : result A) (k : A -> result B) : result B :=
  match r with
  | Ok a => k a
  | Raise e => Raise e
  end.

(** [type(v).__name__] *)
Definition type_name (v : jvalue) : string :=
  match v with
  | JNull => "NoneType"
  | JBool _ => "bool"
  | JInt _ => "int"
  | JFloat _ => "float"
  | JStr _ => "str"
  | JArr _ => "list"
  | JObj _ => "dict"
  end.

Definition no_attribute (v : jvalue) (attr : string) : exn :=
  mk_exn AttributeError
    [Lit ("'" +:+ type_name v +:+ "' object has no attribute '" +:+ attr +:+ "'")].

(** [bool(l)] for a list *)
Definition list_truthy {A} (l : list A) : bool :=
  match l with
  | [] => false
  | _ :: _ => true
  end.

(** [bool(v)] *)
Definition truthy (v : jvalue) : bool :=
  match v with
  | JNull => false
  | JBool b => b
  | JInt n => negb (n =? 0)
  | JFloat x => negb (is_zero x)
  | JStr s => negb (String.eqb s "")
  | JArr l => list_truthy l
  | JObj m => negb (bool_decide (m = ∅))
  end.

(** [v.get(key, default)] *)
Definition py_get (v : jvalue) (key : string) (dflt : jvalue) : result jvalue :=
  match v with
  | JObj m => Ok (default dflt (m !! key))
  | _ => Raise (no_attribute v "get")
  end.

(** [v[0]] *)
Definition py_item0 (v : jvalue) : result jvalue :=
  match v with
  | JArr (x :: _) => Ok x
  | JArr [] => Raise (mk_exn IndexError [Lit "list index out of range"])
  | JStr (String c _) => Ok (JStr (String c EmptyString))
  | JStr EmptyString => Raise (mk_exn IndexError [Lit "string index out of range"])
  | JObj _ => Raise (mk_exn KeyError [Lit "0"])
  | _ => Raise (mk_exn TypeError
                  [Lit ("'" +:+ type_name v +:+ "' object is not subscriptable")])
  end.

(** [v.strip()] *)
Definition py_strip (v : jvalue) : result string :=
  match v with
  | JStr s => Ok (PyStr.strip s)
  | _ => Raise (no_attribute v "strip")
  end.

(** [key in v], for a string [key] *)
Definition py_contains (key : string) (v : jvalue) : result bool :=
  match v with
  | JObj m => Ok (bool_decide (is_Some (m !! key)))
  | JArr l => Ok (existsb (fun x => match x with
                                    | JStr s => String.eqb key s
                                    | _ => false
                                    end) l)
  | JStr s => Ok (PyStr.contains key s)
  | _ => Raise (mk_exn TypeError
                  [Lit ("argument of type '" +:+ type_name v +:+ "' is not iterable")])
  end.

(** [v[key]], for a string [key] *)
Definition py_getitem (v : jvalue) (key : string) : result jvalue :=
  match v with
  | JObj m =>
      match m !! key with
      | Some x => Ok x
      | None => Raise (mk_exn KeyError [FmtRepr key])
      end
  | JArr _ => Raise (mk_exn TypeError
                       [Lit "list indices must be integers or slices, not str"])
  | JStr _ => Raise (mk_exn TypeError [Lit "string indices must be integers, not 'str'"])
  | _ => Raise (mk_exn TypeError
                  [Lit ("'" +:+ type_name v +:+ "' object is not subscriptable")])
  end.

(** ** float(s), int(s) and the '.2f' format *)

Module PyNum.
Import PyStr.

(** The ASCII copy that [float] and [int] make of a string before they
    read it: ASCII stays, other white space becomes a blank, and a
    character that is not a decimal digit becomes ['?'] and ends the copy.
    Below U+0100 the only decimal digits are ['0'..'9']. *)
Fixpoint to_ascii (s : string) : string :=
  match s with
  | EmptyString => EmptyString
  | String c s' =>
      if code c <? 127 then String c (to_ascii s')
      else if isspace c then String " " (to_ascii s')
      else String "?" EmptyString
  end.

(** C's [Py_ISSPACE]. *)
Definition c_isspace (c : ascii) : bool :=
  ((9 <=? code c) && (code c <=? 13)) || (code c =? 32).

Fixpoint c_lstrip (s : string) : string :=
  match s with
  | String c s' => if c_isspace c then c_lstrip s' else s
  | EmptyString => EmptyString
  end.

Fixpoint c_rstrip (s : string) : string :=
  match s with
  | EmptyString => EmptyString
  | String c s' =>
      match c_rstrip s' with
      | EmptyString => if c_isspace c then EmptyString else String c EmptyString
      | r => String c r
      end
  end.

Definition is_underscore (c : ascii) : bool := code c =? 95.

(** Underscores in a [float] literal: each must stand between two digits.
    [prev] is the character before [s]. The result is [s] without them. *)
Fixpoint drop_underscores (prev : ascii) (s : string) : option string :=
  match s with
  | EmptyString => if is_underscore prev then None else Some EmptyString
  | String c s' =>
      if is_underscore c then
        if is_digit prev then drop_underscores c s' else None
      else if is_underscore prev && negb (is_digit c) then None
      else option_map (String c) (drop_underscores c s')
  end.

(** The longest prefix of digits, and what follows it. *)
Fixpoint span_digits (s : string) : string * string :=
  match s with
  | String c s' =>
      if is_digit c
      then let '(d, r) := span_digits s' in (String c d, r)
      else (EmptyString, s)
  | EmptyString => (EmptyString, EmptyString)
  end.

Fixpoint digits_value (acc : Z) (s : string) : Z :=
  match s with
  | EmptyString => acc
  | String c s' => digits_value (10 * acc + digit_value c) s'
  end.

Fixpoint drop_zeros (s : string) : string :=
  match s with
  | String c s' => if code c =? 48 then drop_zeros s' else s
  | EmptyString => EmptyString
  end.

Definition len (s : string) : Z := Z.of_nat (String.length s).

(** An optional sign: whether it is ['-'], and the rest. *)
Definition take_sign (s : string) : bool * string :=
  match s with
  | String c s' =>
      if code c =? 45 then (true, s')
      else if code c =? 43 then (false, s')
      else (false, s)
  | EmptyString => (false, s)
  end.

Definition MAX_DIGITS : Z := 1000000000.
Definition MAX_ABS_EXP : Z := 1100000000.

(** The exponent part [e[+-]ddd] up to the end of the string. An empty
    rest is exponent zero; an [e] with no digit after it is not consumed,
    so the string is not read to its end. *)
Definition parse_exponent (s : string) : option Z :=
  match s with
  | EmptyString => Some 0
  | String c s' =>
      if (code c =? 101) || (code c =? 69) then
        let '(esign, s1) := take_sign s' in
        let '(ds, rest) := span_digits s1 in
        match ds, rest with
        | String _ _, EmptyString =>
            let abs_exp := digits_value 0 ds in
            let e := if (9 <? len (drop_zeros ds)) || (MAX_ABS_EXP <? abs_exp)
                     then MAX_ABS_EXP else abs_exp in
            Some (if esign then - e else e)
        | _, _ => None
        end
      else None
  end.

(** A decimal literal that fills the whole string:
    [[sign] digits [. [digits]] [exponent]] or [[sign] . digits [exponent]],
    rounded to the nearest double. *)
Definition parse_decimal (s : string) : option float :=
  let '(neg, s1) := take_sign s in
  let '(ip, s2) := span_digits s1 in
  let '(fp, s3) :=
    match s2 with
    | String c s2' => if code c =? 46 then span_digits s2' else (EmptyString, s2)
    | EmptyString => (EmptyString, s2)
    end in
  let ds := ip +:+ fp in
  if String.eqb ds "" then None
  else if (MAX_DIGITS <? len (drop_zeros ds)) || (MAX_DIGITS <? len fp) then None
  else
    match parse_exponent s3 with
    | Some e => Some (of_decimal neg (digits_value 0 ds) (e - len fp))
    | None => None
    end.

(** [[sign] inf], [[sign] infinity] and [[sign] nan], in any letter case. *)
Definition parse_inf_or_nan (s : string) : option float :=
  let '(neg, s1) := take_sign s in
  let w := lower_string s1 in
  if String.eqb w "inf" || String.eqb w "infinity" then Some (S754_infinity neg)
  else if String.eqb w "nan" then Some S754_nan
  else None.

Definition could_not_convert (s : string) : exn :=
  mk_exn ValueError [Lit "could not convert string to float: "; FmtRepr s].

(** [float(s)] for a string [s]. *)
Definition float_of_str (s : string) : result float :=
  match drop_underscores Ascii.zero (to_ascii s) with
  | None => Raise (could_not_convert s)
  | Some s1 =>
      let s2 := c_rstrip (c_lstrip s1) in
      if String.eqb s2 "" then Raise (could_not_convert s)
      else
        match parse_decimal s2 with
        | Some x => Ok x
        | None =>
            match parse_inf_or_nan s2 with
            | Some x => Ok x
            | None => Raise (could_not_convert s)
            end
        end
  end.

End PyNum.

Module PyFormat.
Import PyStr.

(** [n / d] rounded to the nearest integer, ties to even ([0 <= n], [0 < d]). *)
Definition div_half_even (n d : Z) : Z :=
  let q := n / d in
  match 2 * (n mod d) ?= d with
  | Lt => q
  | Gt => q + 1
  | Eq => if Z.even q then q else q + 1
  end.

(** The integer nearest to [100 * m * 2^e]. *)
Definition hundredths (m : positive) (e : Z) : Z :=
  if 0 <=? e then 100 * Zpos m * 2 ^ e
  else div_half_even (100 * Zpos m) (2 ^ (- e)).

Definition sign_str (s : bool) : string := if s then "-" else "".

Definition two_digits (n : Z) : string :=
  if n <? 10 then "0" +:+ decimal n else decimal n.

(** [f"{x:.2f}"]: the decimal numeral with two fractional digits nearest
    to the exact value of [x]. *)
Definition format_2f (x : float) : string :=
  match x with
  | S754_nan => "nan"
  | S754_infinity s => sign_str s +:+ "inf"
  | S754_zero s => sign_str s +:+ "0.00"
  | S754_finite s m e =>
      let h := hundredths m e in
      sign_str s +:+ decimal (h / 100) +:+ "." +:+ two_digits (h mod 100)
  end.

End PyFormat.

Module PyInt.
Import PyStr PyNum.

(** Digits with single underscores between them, up to the first character
    that is neither: the digits read, whether the scan is well formed (no
    doubled and no trailing underscore), and the rest. [prev] is the
    character before [s]. *)
Fixpoint scan_digits (prev : ascii) (s : string) : string * bool * string :=
  match s with
  | String c s' =>
      if is_underscore c then
        if is_underscore prev then (EmptyString, false, s)
        else scan_digits c s'
      else if is_digit c then
        let '(d, ok, r) := scan_digits c s' in (String c d, ok, r)
      else (EmptyString, negb (is_underscore prev), s)
  | EmptyString => (EmptyString, negb (is_underscore prev), s)
  end.

(** The default of [sys.get_int_max_str_digits()]. *)
Definition max_str_digits : Z := 4300.

Definition invalid_literal (s : string) : exn :=
  mk_exn ValueError [Lit "invalid literal for int() with base 10: "; FmtRepr s].

(** [int(s)] for a string [s]. *)
Definition int_of_str (s : string) : result Z :=
  let '(neg, s1) := take_sign (c_lstrip (to_ascii s)) in
  match s1 with
  | String c _ =>
      if is_underscore c then Raise (invalid_literal s)
      else
        let '(ds, ok, rest) := scan_digits Ascii.zero s1 in
        if negb ok || String.eqb ds "" then Raise (invalid_literal s)
        else if max_str_digits <? len ds then
          Raise (mk_exn ValueError
                   [Lit "Exceeds the limit (4300 digits) for integer string conversion: value has ";
                    Fmt (JInt (len ds));
                    Lit " digits; use sys.set_int_max_str_digits() to increase the limit"])
        else if String.eqb (c_lstrip rest) ""
        then Ok (cond_Zopp neg (digits_value 0 ds))
        else Raise (invalid_literal s)
  | EmptyString => Raise (invalid_literal s)
  end.

End PyInt.

(** ** The outbound call and the state of a request *)

Record message := { role : string; content : fstring }.

(** The [payload] dict, one field per key. *)
Record payload := {
  model : string;
  messages : list message;
  max_tokens : Z;
  temperature : float;
  seed : Z
}.

(** One call [requests.post(url, json=..., headers=...)]. *)
Record post_call := {
  url : string;
  json : payload;
  headers : gmap string fstring
}.

(** What the handler reads of a [requests.Response]: [response_json] is the
    outcome of [response.json()]. *)
Record response := {
  status_code : Z;
  response_text : string;
  response_json : result jvalue
}.

(** What the handler reads of Flask's [request]: the outcome of
    [request.get_json()] with its default arguments. It returns the decoded
    body ([JNull] for [None]), or it raises: [BadRequest] when the body of a
    JSON request does not decode and, from Werkzeug 2.1 on,
    [UnsupportedMediaType] when the Content-Type is not JSON (older versions
    return [None] there). *)
Record request := { get_json : result jvalue }.

(** A Flask response: [jsonify(body), status]. *)
Record http_response := { status : Z; body : gmap string fstring }.

Definition jsonify (key : string) (value : fstring) : gmap string fstring :=
  {[ key := value ]}.

(** A computation of the handler: it may raise, and it extends the log of
    the calls sent so far. The log is kept when an exception passes. *)
Definition M (A : Type) : Type := list post_call -> result A * list post_call.

Definition ret {A} (a : A) : M A := fun log => (Ok a, log).

Definition raise {A} (e : exn) : M A := fun log => (Raise e, log).

Definition bind {A B} (m : M A) (k : A -> M B) : M B :=
  fun log =>
    match m log with
    | (Ok a, log') => k a log'
    | (Raise e, log') => (Raise e, log')
    end.

Definition lift {A} (r : result A) : M A := fun log => (r, log).

(** [try: body  except Exception as e: handler e] *)
Definition try_except {A} (body : M A) (handler : exn -> M A) : M A :=
  fun log =>
    match body log with
    | (Ok a, log') => (Ok a, log')
    | (Raise e, log') => handler e log'
    end.

(** [for _ in range(n): acc = body acc] *)
Fixpoint for_range {A} (n : nat) (body : A -> M A) (acc : A) : M A :=
  match n with
  | O => ret acc
  | S n' => bind (body acc) (for_range n' body)
  end.

Declare Scope py_scope.
Delimit Scope py_scope with py.
Notation "x <- m ;; k" := (bind m (fun x => k))
  (at level 20, m at level 99, k at level 200) : py_scope.
Notation "x <-- r ;; k" := (result_bind r (fun x => k))
  (at level 20, r at level 99, k at level 200) : py_scope.
Local Open Scope py_scope.

(** ** sum(cacs) / len(cacs) *)

(** The value of [sum(xs)]: the integer [0] for an empty list. *)
Inductive number :=
| Int (n : Z)
| Float (x : float).

(** The running total of [sum] from CPython 3.12 on: Neumaier's compensated
    summation, with the total [f_result] and the compensation [c]. *)
Fixpoint fsum_compensated (f_result c : float) (xs : list float) : float :=
  match xs with
  | [] => if negb (is_zero c) && is_finite c then add f_result c else f_result
  | x :: xs' =>
      let t := add f_result x in
      let c' := if leb (abs x) (abs f_result)
                then add c (add (sub f_result t) x)
                else add c (add (sub x t) f_result) in
      fsum_compensated t c' xs'
  end.

(** The float that [sum] returns for the non-empty list [x :: xs]: it
    starts from [0 + x] and adds the items in order. [compensated] says
    whether the interpreter is CPython 3.12 or later. *)
Definition fsum (compensated : bool) (x : float) (xs : list float) : float :=
  if compensated
  then fsum_compensated (add zero x) zero xs
  else fold_left add xs (add zero x).

(** [sum(xs)] for a list of floats. *)
Definition py_sum (compensated : bool) (xs : list float) : number :=
  match xs with
  | [] => Int 0
  | x :: xs' => Float (fsum compensated x xs')
  end.

(** An integer as a float operand, before any rounding. *)
Definition exact (n : Z) : float :=
  match n with
  | Z0 => zero
  | Zpos p => S754_finite false p 0
  | Zneg p => S754_finite true p 0
  end.

(** [a / n], for [n] a length. *)
Definition py_truediv (a : number) (n : nat) : result float :=
  match n with
  | O =>
      Raise (mk_exn ZeroDivisionError
               [Lit match a with
                    | Int _ => "division by zero"
                    | Float _ => "float division by zero"
                    end])
  | S _ =>
      match a with
      | Int k => Ok (div (exact k) (exact (Z.of_nat n)))
      | Float x =>
          if is_finite (of_Z (Z.of_nat n))
          then Ok (div x (of_Z (Z.of_nat n)))
          else Raise (mk_exn OverflowError [Lit "int too large to convert to float"])
      end
  end.

(** ** The service *)

(** [result.get('choices', [{}])[0].get('message', {}).get('content', '').strip()] *)
Definition stripped_content (doc : jvalue) : result string :=
  choices <-- py_get doc "choices" (JArr [JObj ∅]) ;;
  choice <-- py_item0 choices ;;
  message <-- py_get choice "message" (JObj ∅) ;;
  content <-- py_get message "content" (JStr "") ;;
  py_strip content.

Definition OPENAI_API_URL : string := "https://api.openai.com/v1/chat/completions".

(** The literal parts of the prompt. The source spells the euro sign as the
    three code points U+00E2, U+201A and U+00AC. The first ends
    [prompt_head] and the third starts [prompt_criteria]; the second lies
    above U+00FF and stands between them as a [Chr] (see [make_prompt]). *)
Definition prompt_head : string := "
You are an expert in evaluating Goodiebox welcome boxes for their ability to attract new members at low Customer Acquisition Cost (CAC). Based on the historical data provided, which includes box features and their corresponding CAC in euros, predict the CAC for the future welcome box. The CAC should be a numerical value in euros, with two decimal places (e.g., 10.50). Consider factors such as the number of products, total retail value, number of unique categories, number of full-size products, number of premium products (>" +:+ String "226"%char "".
Definition prompt_criteria : string := String "172"%char "20), total weight, average product rating, average brand rating, and average category rating. Return only the numerical CAC value in euros (e.g., 10.50).

Historical Data: ".
Definition prompt_middle : string := "

Future Box Info: ".
Definition prompt_tail : string := "
".

Definition system_content : string :=
  "You are an expert in predicting Goodiebox performance, skilled at analyzing historical trends.".

(** The literal [0.2]. *)
Definition temperature_0_2 : float := of_decimal false 2 (-1).

Section Service.

(** The module global [OPENAI_API_KEY], read with [os.getenv] at import. *)
Variable OPENAI_API_KEY : option string.

(** Whether the interpreter's [sum] compensates (CPython 3.12 or later). *)
Variable compensated : bool.

(** The outcome of each call of [requests.post], numbered from 0 in the
    order the calls are made: a response, or the exception it raises. *)
Variable remote : nat -> result response.

Definition requests_post (url : string) (json : payload)
    (headers : gmap string fstring) : M response :=
  fun log => (remote (length log), log ++ [Build_post_call url json headers]).

Definition make_headers : gmap string fstring :=
  {[ "Authorization" := [Lit "Bearer "; Lit (default "None" OPENAI_API_KEY)];
     "Content-Type" := [Lit "application/json"] ]}.

Definition make_prompt (historical_data future_box_info : jvalue) : fstring :=
  [Lit prompt_head; Chr 8218; Lit prompt_criteria] ++ fmt historical_data ++
  [Lit prompt_middle] ++ fmt future_box_info ++ [Lit prompt_tail].

Definition make_payload (prompt : fstring) : payload :=
  {| model := "gpt-4o";
     messages := [ {| role := "system"; content := [Lit system_content] |};
                   {| role := "user"; content := prompt |} ];
     max_tokens := 10;
     temperature := temperature_0_2;
     seed := 42 |}.

(** The body of the loop [for _ in range(5)]: one call, its checks, and
    [cacs.append(cac_float)]. *)
Definition run_once (headers : gmap string fstring) (prompt : fstring)
    (cacs : list float) : M (list float) :=
  let payload := make_payload prompt in
  response <- requests_post OPENAI_API_URL payload headers ;;
  if negb (status_code response =? 200) then
    raise (mk_exn Exception
             [Lit "OpenAI API error: "; Fmt (JInt (status_code response));
              Lit " - "; Lit (response_text response)])
  else
    result <- lift (response_json response) ;;
    cac <- lift (stripped_content result) ;;
    if negb (truthy (JStr cac)) then
      raise (mk_exn ValueError [Lit "Empty response from model"])
    else
      try_except
        (cac_float <- lift (PyNum.float_of_str cac) ;;
         if ltb cac_float zero then
           raise (mk_exn ValueError [Lit "CAC cannot be negative"])
         else ret (cacs ++ [cac_float]))
        (fun e =>
           if is_ValueError (exn_cls e)
           then raise (mk_exn ValueError [Lit "Invalid CAC: "; Lit cac])
           else raise e).

Definition predict_box_cac (historical_data future_box_info : jvalue) : M string :=
  try_except
    (let prompt := make_prompt historical_data future_box_info in
     let headers := make_headers in
     cacs <- for_range 5 (run_once headers prompt) [] ;;
     if negb (list_truthy cacs) then
       raise (mk_exn ValueError [Lit "No valid CAC values collected"])
     else
       avg_cac <- lift (py_truediv (py_sum compensated cacs) (length cacs)) ;;
       let final_cac := PyFormat.format_2f avg_cac in
       ret final_cac)
    (fun e => raise (mk_exn Exception ([Lit "Prediction error: "] ++ exn_str e))).

(** POST /predict_box_score *)
Definition box_score (request : request) : M http_response :=
  try_except
    (data <- lift (get_json request) ;;
     missing <- lift (if negb (truthy data) then Ok true
                      else present <-- py_contains "future_box_info" data ;;
                           Ok (negb present)) ;;
     if missing : bool then
       ret {| status := 400; body := jsonify "error" [Lit "Missing future_box_info"] |}
     else
       historical_data <- lift (py_get data "historical_data"
                                  (JStr "No historical data provided")) ;;
       future_box_info <- lift (py_getitem data "future_box_info") ;;
       cac <- predict_box_cac historical_data future_box_info ;;
       ret {| status := 200; body := jsonify "predicted_cac" [Lit cac] |})
    (fun e => ret {| status := 500; body := jsonify "error" (exn_str e) |}).

(** GET /health *)
Definition health_check : M http_response :=
  ret {| status := 200; body := jsonify "status" [Lit "healthy"] |}.

End Service.

(** ** Start-up *)

(** How the [__main__] block ends: [app.run(host, port)] is entered, or an
    exception leaves the script before it. *)
Inductive startup :=
| AppRun (host : string) (port : Z)
| Crash (e : exn).

(** The [__main__] block, over the environment after [load_dotenv()]. *)
Definition main (environ : gmap string string) : startup :=
  let OPENAI_API_KEY := environ !! "OPENAI_API_KEY" in
  if negb (match OPENAI_API_KEY with
           | Some k => truthy (JStr k)
           | None => truthy JNull
           end)
  then Crash (mk_exn ValueError [Lit "OPENAI_API_KEY not set"])
  else
    match (match environ !! "PORT" with
           | Some p => PyInt.int_of_str p
           | None => Ok 5000
           end) with
    | Ok port => AppRun "0.0.0.0" port
    | Raise e => Crash e
    end.

(** ** Predicates used in the statements *)

(** The outcome [o] of one call is a response with status 200 whose body
    decodes, holds a content which, stripped, [float] parses as [x], and [x]
    is not below zero. *)
Definition accepted (o : result response) (x : float) : Prop :=
  ∃ r doc cac,
    o = Ok r ∧ status_code r = 200 ∧ response_json r = Ok doc ∧
    stripped_content doc = Ok cac ∧ PyNum.float_of_str cac = Ok x ∧
    ltb x zero = false.

(** The stripped content [cac] is empty, or [float] does not parse it, or it
    parses to a number below zero. *)
Definition rejected_content (cac : string) : Prop :=
  cac = "" ∨ (∃ e, PyNum.float_of_str cac = Raise e) ∨
  (∃ x, PyNum.float_of_str cac = Ok x ∧ ltb x zero = true).

(** The outcome [o] of one call is a response whose body decodes and whose
    stripped content is rejected. *)
Definition bad_content (o : result response) : Prop :=
  ∃ r doc cac,
    o = Ok r ∧ response_json r = Ok doc ∧ stripped_content doc = Ok cac ∧
    rejected_content cac.

(** The decoded request body is [None], or falsy, or a dict without the key
    [future_box_info]. *)
Definition lacks_future_box_info (data : jvalue) : Prop :=
  data = JNull ∨ truthy data = false ∨
  (∃ m, data = JObj m ∧ m !! "future_box_info" = None).

(** The request body is falsy, or a container without [future_box_info]:
    the test of the 400 branch. *)
Definition field_missing (data : jvalue) : Prop :=
  truthy data = false ∨ py_contains "future_box_info" data = Ok false.

(** The decoded request body is a dict that has the key [future_box_info]. *)
Definition has_future_box_info (req : request) : Prop :=
  ∃ m v, get_json req = Ok (JObj m) ∧ m !! "future_box_info" = Some v.

(** A response body that reports an error and no prediction. *)
Definition error_body (b : gmap string fstring) : Prop :=
  is_Some (b !! "error") ∧ b !! "predicted_cac" = None.

(** A 500 response with an error body. *)
Definition is_error_500 (h : http_response) : Prop :=
  status h = 500 ∧ error_body (body h).

(** The call that one run of the loop sends. *)
Definition call_with (headers : gmap string fstring) (prompt : fstring) : post_call :=
  {| url := OPENAI_API_URL; json := make_payload prompt; headers := headers |}.

(** The call that [predict_box_cac] sends, each of the five times. *)
Definition the_call (key : option string) (historical_data future_box_info : jvalue)
    : post_call :=
  call_with (make_headers key) (make_prompt historical_data future_box_info).

(** The exception that leaves [predict_box_cac] when [e] is raised inside. *)
Definition prediction_error (e : exn) : exn :=
  mk_exn Exception ([Lit "Prediction error: "] ++ exn_str e).

(** [historical_data] as [box_score] reads it from the body [m]. *)
Definition historical_data_of (m : gmap string jvalue) : jvalue :=
  default (JStr "No historical data provided") (m !! "historical_data").

(** A response with status [code] whose body is the chat completion with
    the one message content [s]. *)
Definition completion (code : Z) (s : string) : response :=
  {| status_code := code;
     response_text := "";
     response_json :=
       Ok (JObj {[ "choices" :=
                     JArr [JObj {[ "message" := JObj {[ "content" := JStr s ]} ]}] ]}) |}.

(** The remote that answers the n-th call with status 200 and the n-th
    string of [l], and refuses the connection after that. *)
Definition scripted (l : list string) (n : nat) : result response :=
  match l !! n with
  | Some s => Ok (completion 200 s)
  | None => Raise (mk_exn RequestException [Lit "connection refused"])
  end.

(** A request whose body is [{"future_box_info": info}]. *)
Definition request_for (info : string) : request :=
  {| get_json := Ok (JObj {[ "future_box_info" := JStr info ]}) |}.

(** A request with a JSON content type and a body that does not decode:
    Flask's [get_json] raises [BadRequest]. *)
Definition malformed_request : request :=
  {| get_json :=
       Raise (mk_exn BadRequest
                [Lit "400 Bad Request: The browser (or proxy) sent a request that this server could not understand."]) |}.

(** A POST with a JSON content type and a body of length zero: there is
    nothing to decode, and Flask's [get_json] raises [BadRequest]. *)
Definition empty_body_request : request :=
  {| get_json :=
       Raise (mk_exn BadRequest
                [Lit "400 Bad Request: The browser (or proxy) sent a request that this server could not understand."]) |}.

(** A POST without a body and without a JSON content type: [get_json] does
    not try to decode and, from Werkzeug 2.3 on, raises
    [UnsupportedMediaType]. *)
Definition bodyless_request : request :=
  {| get_json :=
       Raise (mk_exn UnsupportedMediaType
                [Lit "415 Unsupported Media Type: Did not attempt to load JSON data because the request Content-Type was not 'application/json'."]) |}.

(** ** The reading of one call *)

(** What one run of the loop makes of the outcome [o] of its call: the
    number it appends to [cacs], or the exception that leaves the loop.
    [run_once_judge] below proves that [run_once] does exactly this. *)
Definition judge (o : result response) : result float :=
  match o with
  | Raise e => Raise e
  | Ok response =>
      if negb (status_code response =? 200) then
        Raise (mk_exn Exception
                 [Lit "OpenAI API error: "; Fmt (JInt (status_code response));
                  Lit " - "; Lit (response_text response)])
      else
        match response_json response with
        | Raise e => Raise e
        | Ok doc =>
            match stripped_content doc with
            | Raise e => Raise e
            | Ok cac =>
                if negb (truthy (JStr cac)) then
                  Raise (mk_exn ValueError [Lit "Empty response from model"])
                else
                  match PyNum.float_of_str cac with
                  | Ok x =>
                      if ltb x zero
                      then Raise (mk_exn ValueError [Lit "Invalid CAC: "; Lit cac])
                      else Ok x
                  | Raise e =>
                      if is_ValueError (exn_cls e)
                      then Raise (mk_exn ValueError [Lit "Invalid CAC: "; Lit cac])
                      else Raise e
                  end
            end
        end
  end.

(** The first [k] calls are accepted. *)
Definition accepted_before (remote : nat -> result response) (k : nat) : Prop :=
  ∀ i, (i < k)%nat → ∃ x, accepted (remote i) x.

(** The answer 500 that reports the exception [e] raised inside
    [predict_box_cac]. *)
Definition prediction_failed (e : exn) : http_response :=
  {| status := 500;
     body := jsonify "error" ([Lit "Prediction error: "] ++ exn_str e) |}.

(** Every character of [s] is one of ['0'..'9']. *)
Fixpoint all_digits (s : string) : bool :=
  match s with
  | EmptyString => true
  | String c s' => PyStr.is_digit c && all_digits s'
  end.

(** [s] is [sign], then at least one digit, a point and two digits. *)
Definition two_decimal (sign s : string) : Prop :=
  ∃ ip fp,
    s = sign +:+ ip +:+ "." +:+ fp ∧ ip ≠ "" ∧
    all_digits ip = true ∧ all_digits fp = true ∧ String.length fp = 2%nat.

(** A float that is NaN or has a clear sign bit. *)
Definition signless (x : float) : bool :=
  match x with
  | S754_nan | S754_zero false | S754_infinity false | S754_finite false _ _ => true
  | _ => false
  end.

(** * Properties *)

#[local] Arguments PyNum.float_of_str : simpl never.
#[local] Arguments PyFormat.format_2f : simpl never.
#[local] Arguments stripped_content : simpl never.
#[local] Arguments ltb : simpl never.
#[local] Arguments truthy : simpl never.
#[local] Arguments make_payload : simpl never.
#[local] Arguments make_prompt : simpl never.
#[local] Arguments make_headers : simpl never.

(** Unfolds the operations of [M]. *)
Ltac unfold_M :=
  unfold bind, lift, ret, raise, try_except, requests_post in *.

(** Proves [accepted (scripted l n) ?x] for a literal script [l]. *)
Ltac accept_scripted :=
  eexists _, _, _;
  split; [reflexivity|]; split; [reflexivity|]; split; [reflexivity|];
  split; [vm_compute; reflexivity|]; split; vm_compute; reflexivity.

(** ** The model of numbers against known values *)

Example strip_blanks :
  PyStr.strip (String "009"%char (" 10.50 " +:+ String "010"%char "")) = "10.50".
Proof. reflexivity. Qed.

Example float_one_tenth :
  PyNum.float_of_str "0.1" = Ok (S754_finite false 7205759403792794 (-56)).
Proof. vm_compute. reflexivity. Qed.

Example float_largest :
  PyNum.float_of_str "1.7976931348623157e308"
  = Ok (S754_finite false 9007199254740991 971).
Proof. vm_compute. reflexivity. Qed.

Example float_overflows : PyNum.float_of_str "1e309" = Ok (S754_infinity false).
Proof. vm_compute. reflexivity. Qed.

Example float_smallest :
  PyNum.float_of_str "5e-324" = Ok (S754_finite false 1 (-1074)).
Proof. vm_compute. reflexivity. Qed.

Example float_underflows : PyNum.float_of_str "-2e-324" = Ok (S754_zero true).
Proof. vm_compute. reflexivity. Qed.

Example float_with_underscore :
  PyNum.float_of_str "1_000.5" = PyNum.float_of_str "1000.5".
Proof. vm_compute. reflexivity. Qed.

Example float_nan : PyNum.float_of_str "NaN" = Ok S754_nan.
Proof. vm_compute. reflexivity. Qed.

Example float_rejects_words :
  PyNum.float_of_str "about 10" = Raise (PyNum.could_not_convert "about 10").
Proof. vm_compute. reflexivity. Qed.

Example float_rejects_currency :
  PyNum.float_of_str "10,50" = Raise (PyNum.could_not_convert "10,50").
Proof. vm_compute. reflexivity. Qed.

Example format_rounds_binary_value :
  PyNum.float_of_str "2.675" = Ok (S754_finite false 6023564501608038 (-51)) ∧
  PyFormat.format_2f (S754_finite false 6023564501608038 (-51)) = "2.67".
Proof. split; vm_compute; reflexivity. Qed.

Example format_ties_to_even :
  PyFormat.format_2f (of_decimal false 125 (-3)) = "0.12" ∧
  PyFormat.format_2f (of_decimal false 375 (-3)) = "0.38".
Proof. split; vm_compute; reflexivity. Qed.

Example format_negative_zero : PyFormat.format_2f (S754_zero true) = "-0.00".
Proof. reflexivity. Qed.

Example int_of_port : PyInt.int_of_str " 8080 " = Ok 8080.
Proof. vm_compute. reflexivity. Qed.

(** [div_half_even n d] is an integer nearest to [n / d]. *)
Lemma div_half_even_nearest n d :
  0 < d → 2 * Z.abs (n - d * PyFormat.div_half_even n d) ≤ d.
Proof.
  intros Hd. unfold PyFormat.div_half_even.
  pose proof (Z.div_mod n d ltac:(lia)) as Hn.
  pose proof (Z.mod_pos_bound n d Hd) as Hr.
  generalize dependent (n mod d). generalize dependent (n / d).
  intros q r Hn Hr.
  destruct (Z.compare_spec (2 * r) d) as [E|E|E]; [destruct (Z.even q)|..]; lia.
Qed.

(** [hundredths m e] is within one half of [100 * m * 2^e]. *)
Lemma hundredths_nearest m e :
  (0 ≤ e → PyFormat.hundredths m e = 100 * Zpos m * 2 ^ e) ∧
  (e < 0 → 2 * Z.abs (100 * Zpos m - 2 ^ (- e) * PyFormat.hundredths m e) ≤ 2 ^ (- e)).
Proof.
  unfold PyFormat.hundredths. split; intros He.
  - by rewrite (proj2 (Z.leb_le 0 e) He).
  - rewrite (proj2 (Z.leb_gt 0 e) He).
    apply div_half_even_nearest. apply Z.pow_pos_nonneg; lia.
Qed.

(** A string that [float] parses is not empty. *)
Lemma float_of_str_nonempty cac x :
  PyNum.float_of_str cac = Ok x → truthy (JStr cac) = true.
Proof.
  intros H. destruct cac as [|c s]; [|reflexivity].
  vm_compute in H. discriminate.
Qed.

Lemma truthy_dict_with_key (m : gmap string jvalue) k v :
  m !! k = Some v → truthy (JObj m) = true.
Proof.
  intros H. unfold truthy. rewrite bool_decide_eq_false_2; [reflexivity|].
  intros ->. rewrite lookup_empty in H. discriminate.
Qed.

Lemma rejected_not_accepted o x : bad_content o → ¬ accepted o x.
Proof.
  intros (r & doc & cac & Ho & Hj & Hc & Hrej) (r' & doc' & cac' & Ho' & _ & Hj' & Hc' & Hf & Hlt).
  rewrite Ho in Ho'. injection Ho' as <-.
  rewrite Hj in Hj'. injection Hj' as <-.
  rewrite Hc in Hc'. injection Hc' as <-.
  destruct Hrej as [-> | [[e He] | (y & Hy & Hneg)]].
  - vm_compute in Hf. discriminate.
  - rewrite He in Hf. discriminate.
  - rewrite Hy in Hf. injection Hf as ->. rewrite Hneg in Hlt. discriminate.
Qed.

Section Loop.

Variable remote : nat → result response.
Variable headers : gmap string fstring.
Variable prompt : fstring.

(** An accepted response appends its number. *)
Lemma run_once_accepted cacs log x :
  accepted (remote (length log)) x →
  run_once remote headers prompt cacs log = (Ok (cacs ++ [x]), log ++ [call_with headers prompt]).
Proof.
  intros (r & doc & cac & Hr & Hs & Hj & Hc & Hf & Hlt).
  unfold run_once. unfold_M.
  rewrite Hr, Hs. simpl. rewrite Hj, Hc.
  rewrite (float_of_str_nonempty _ _ Hf). simpl.
  rewrite Hf, Hlt. reflexivity.
Qed.

(** A run that does not raise has met an accepted response. *)
Lemma run_once_inv cacs log cacs' log' :
  run_once remote headers prompt cacs log = (Ok cacs', log') →
  ∃ x, accepted (remote (length log)) x ∧ cacs' = cacs ++ [x] ∧ log' = log ++ [call_with headers prompt].
Proof.
  unfold run_once. unfold_M. unfold accepted.
  destruct (remote (length log)) as [r|e]; [|discriminate].
  destruct (status_code r =? 200) eqn:Hs; [|discriminate]. simpl.
  destruct (response_json r) as [doc|e] eqn:Hj; [|discriminate].
  destruct (stripped_content doc) as [cac|e] eqn:Hc; [|discriminate].
  destruct (truthy (JStr cac)) eqn:Ht; [|discriminate]. simpl.
  destruct (PyNum.float_of_str cac) as [x|e] eqn:Hf.
  - destruct (ltb x zero) eqn:Hlt; simpl; [discriminate|].
    intros [= <- <-]. exists x. split; [|done].
    exists r, doc, cac. apply Z.eqb_eq in Hs. done.
  - destruct (is_ValueError (exn_cls e)); discriminate.
Qed.

(** The loop over accepted responses collects their numbers in order. *)
Lemma for_range_accepted n : ∀ xs cacs log,
  length xs = n →
  (∀ i x, xs !! i = Some x → accepted (remote (length log + i)) x) →
  for_range n (run_once remote headers prompt) cacs log
  = (Ok (cacs ++ xs), log ++ replicate n (call_with headers prompt)).
Proof.
  induction n as [|n IH]; intros xs cacs log Hlen Hacc.
  - destruct xs; [|discriminate]. simpl. unfold ret.
    by rewrite !app_nil_r.
  - destruct xs as [|x xs]; [discriminate|]. simpl in Hlen.
    simpl. unfold bind at 1.
    rewrite (run_once_accepted cacs log x).
    2:{ specialize (Hacc 0%nat x eq_refl). by rewrite Nat.add_0_r in Hacc. }
    rewrite (IH xs); [| lia |].
    + by rewrite <- !app_assoc.
    + intros i y Hy. rewrite length_app. simpl.
      replace (length log + 1 + i)%nat with (length log + S i)%nat by lia.
      by apply Hacc.
Qed.

(** A loop that does not raise has met [n] accepted responses. *)
Lemma for_range_inv n : ∀ cacs log cacs' log',
  for_range n (run_once remote headers prompt) cacs log = (Ok cacs', log') →
  ∃ xs, length xs = n ∧ cacs' = cacs ++ xs ∧ log' = log ++ replicate n (call_with headers prompt) ∧
        ∀ i x, xs !! i = Some x → accepted (remote (length log + i)) x.
Proof.
  induction n as [|n IH]; intros cacs log cacs' log' H.
  - simpl in H. unfold ret in H. injection H as <- <-.
    exists []. rewrite !app_nil_r. repeat split; try done.
  - simpl in H. unfold bind at 1 in H.
    destruct (run_once remote headers prompt cacs log) as [[cacs1|e] log1] eqn:H1;
      [|discriminate].
    apply run_once_inv in H1 as (x & Hx & -> & ->).
    apply IH in H as (xs & Hlen & -> & -> & Hxs).
    exists (x :: xs). simpl. rewrite <- !app_assoc. repeat split; try done.
    + by rewrite Hlen.
    + intros [|i] y Hy; simpl in Hy.
      * injection Hy as <-. by rewrite Nat.add_0_r.
      * specialize (Hxs i y Hy). rewrite length_app in Hxs. simpl in Hxs.
        by replace (length log + S i)%nat with (length log + 1 + i)%nat by lia.
Qed.

End Loop.

Lemma lacks_is_field_missing data : lacks_future_box_info data → field_missing data.
Proof.
  intros [-> | [H | (m & -> & Hm)]].
  - by left.
  - by left.
  - right. simpl. rewrite Hm. rewrite bool_decide_eq_false_2; [done|].
    by intros [? ?].
Qed.

Lemma error_body_jsonify t : error_body (jsonify "error" t).
Proof.
  unfold error_body, jsonify.
  split; [by rewrite lookup_singleton_eq | by rewrite lookup_singleton_ne].
Qed.

Section Handler.

Variable key : option string.
Variable compensated : bool.
Variable remote : nat → result response.


(** [predict_box_cac] is its loop followed by the average, with every
    exception wrapped. *)
Lemma predict_box_cac_unfold hd fbi log :
  predict_box_cac key compensated remote hd fbi log =
  match for_range 5 (run_once remote (make_headers key) (make_prompt hd fbi)) [] log with
  | (Ok cacs, log') =>
      if negb (list_truthy cacs)
      then (Raise (prediction_error (mk_exn ValueError [Lit "No valid CAC values collected"])), log')
      else match py_truediv (py_sum compensated cacs) (length cacs) with
           | Ok avg => (Ok (PyFormat.format_2f avg), log')
           | Raise e => (Raise (prediction_error e), log')
           end
  | (Raise e, log') => (Raise (prediction_error e), log')
  end.
Proof.
  unfold predict_box_cac. unfold_M.
  destruct (for_range 5 _ [] log) as [[cacs|e] log']; [|reflexivity].
  destruct (negb (list_truthy cacs)); [reflexivity|].
  destruct (py_truediv _ _); reflexivity.
Qed.

Lemma predict_box_cac_ok hd fbi log x0 x1 x2 x3 x4 :
  accepted (remote (length log)) x0 →
  accepted (remote (length log + 1)) x1 →
  accepted (remote (length log + 2)) x2 →
  accepted (remote (length log + 3)) x3 →
  accepted (remote (length log + 4)) x4 →
  predict_box_cac key compensated remote hd fbi log
  = (Ok (PyFormat.format_2f (div (fsum compensated x0 [x1; x2; x3; x4]) (of_Z 5))),
     log ++ replicate 5 (the_call key hd fbi)).
Proof.
  intros H0 H1 H2 H3 H4. rewrite predict_box_cac_unfold.
  rewrite (for_range_accepted _ _ _ 5 [x0; x1; x2; x3; x4]); [reflexivity..|].
  intros i x Hx.
  destruct i as [|[|[|[|[|i]]]]]; simpl in Hx; try discriminate;
    injection Hx as <-; try done.
  by rewrite Nat.add_0_r.
Qed.

Lemma predict_box_cac_inv hd fbi log s log' :
  predict_box_cac key compensated remote hd fbi log = (Ok s, log') →
  ∃ x0 x1 x2 x3 x4,
    accepted (remote (length log)) x0 ∧
    accepted (remote (length log + 1)) x1 ∧
    accepted (remote (length log + 2)) x2 ∧
    accepted (remote (length log + 3)) x3 ∧
    accepted (remote (length log + 4)) x4 ∧
    s = PyFormat.format_2f (div (fsum compensated x0 [x1; x2; x3; x4]) (of_Z 5)) ∧
    log' = log ++ replicate 5 (the_call key hd fbi).
Proof.
  rewrite predict_box_cac_unfold.
  destruct (for_range 5 _ [] log) as [[cacs|e] log1] eqn:Hloop; [|discriminate].
  apply for_range_inv in Hloop as (xs & Hlen & -> & -> & Hacc).
  destruct xs as [|x0 [|x1 [|x2 [|x3 [|x4 [|x5 xs]]]]]]; try discriminate.
  simpl. intros [= <- <-].
  exists x0, x1, x2, x3, x4.
  pose proof (Hacc 0%nat x0 eq_refl) as H0. rewrite Nat.add_0_r in H0.
  repeat split; try done; by apply Hacc.
Qed.

(** With [future_box_info] in the body, [box_score] maps the outcome of
    [predict_box_cac] to 200 or 500. *)
Lemma box_score_valid req m v log :
  get_json req = Ok (JObj m) → m !! "future_box_info" = Some v →
  box_score key compensated remote req log =
  match predict_box_cac key compensated remote (historical_data_of m) v log with
  | (Ok cac, log') =>
      (Ok {| status := 200; body := jsonify "predicted_cac" [Lit cac] |}, log')
  | (Raise e, log') =>
      (Ok {| status := 500; body := jsonify "error" (exn_str e) |}, log')
  end.
Proof.
  intros Hj Hv. unfold box_score. unfold_M. rewrite Hj.
  rewrite (truthy_dict_with_key _ _ _ Hv). simpl.
  rewrite Hv. rewrite bool_decide_eq_true_2 by eauto. simpl.
  fold (historical_data_of m).
  destruct (predict_box_cac _ _ _ _ _ _) as [[cac|e] log']; reflexivity.
Qed.

(** The 400 branch: taken exactly when the field is missing, and then
    nothing is sent. *)
Lemma box_score_missing req data log :
  get_json req = Ok data → field_missing data →
  box_score key compensated remote req log
  = (Ok {| status := 400; body := jsonify "error" [Lit "Missing future_box_info"] |},
     log).
Proof.
  intros Hj Hm. unfold box_score. unfold_M. rewrite Hj.
  destruct (truthy data) eqn:Ht; simpl; [|reflexivity].
  destruct Hm as [Hm | Hm]; [congruence|].
  rewrite Hm. reflexivity.
Qed.

(** [box_score] never raises: it always answers. *)
Lemma box_score_answers req log :
  ∃ h log', box_score key compensated remote req log = (Ok h, log').
Proof.
  unfold box_score. unfold_M.
  destruct (get_json req) as [data|e]; [|eauto].
  destruct (negb (truthy data)); simpl; [eauto|].
  destruct (py_contains "future_box_info" data) as [[|]|e]; simpl; [|eauto..].
  destruct (py_get data _ _) as [hd|e]; [|eauto].
  destruct (py_getitem data _) as [v|e]; [|eauto].
  destruct (predict_box_cac _ _ _ _ _ _) as [[cac|e] log']; eauto.
Qed.

(** A 200 answer comes from a body with [future_box_info] and a
    prediction that did not raise. *)
Lemma box_score_200_inv req log h log' :
  box_score key compensated remote req log = (Ok h, log') → status h = 200 →
  ∃ m v cac,
    get_json req = Ok (JObj m) ∧ m !! "future_box_info" = Some v ∧
    predict_box_cac key compensated remote (historical_data_of m) v log = (Ok cac, log') ∧
    h = {| status := 200; body := jsonify "predicted_cac" [Lit cac] |}.
Proof.
  unfold box_score. unfold_M.
  destruct (get_json req) as [data|e]; [|by intros [= <- <-]].
  destruct (negb (truthy data)); simpl; [by intros [= <- <-]|].
  destruct (py_contains "future_box_info" data) as [[|]|e] eqn:Hc; simpl;
    [|by intros [= <- <-]..].
  destruct (py_get data _ _) as [hd|e] eqn:Hg; [|by intros [= <- <-]].
  destruct data; try discriminate.
  simpl in Hc, Hg. injection Hg as <-. injection Hc as Hc.
  apply bool_decide_eq_true_1 in Hc as [v Hv].
  simpl. rewrite Hv.
  destruct (predict_box_cac _ _ _ _ _ _) as [[cac|e] log1] eqn:Hp;
    [|by intros [= <- <-]].
  intros [= <- <-] _. by exists m, v, cac.
Qed.

(** A 400 answer comes from a missing field. *)
Lemma box_score_400_inv req log h log' :
  box_score key compensated remote req log = (Ok h, log') → status h = 400 →
  ∃ data, get_json req = Ok data ∧ field_missing data.
Proof.
  unfold box_score. unfold_M.
  destruct (get_json req) as [data|e]; [|by intros [= <- <-]].
  destruct (truthy data) eqn:Ht; simpl.
  2:{ intros _ _. exists data. split; [done|by left]. }
  destruct (py_contains "future_box_info" data) as [[|]|e] eqn:Hc; simpl.
  - destruct (py_get data _ _) as [hd|e]; [|by intros [= <- <-]].
    destruct (py_getitem data _) as [v|e]; [|by intros [= <- <-]].
    destruct (predict_box_cac _ _ _ _ _ _) as [[cac|e] log1]; by intros [= <- <-].
  - intros _ _. exists data. split; [done|by right].
  - by intros [= <- <-].
Qed.

(** An answer that is neither 200 nor 400 is a 500 with an error body. *)
Lemma box_score_statuses req log h log' :
  box_score key compensated remote req log = (Ok h, log') →
  (status h = 200 ∧ is_Some (body h !! "predicted_cac") ∧ body h !! "error" = None) ∨
  (status h = 400 ∧ error_body (body h)) ∨
  is_error_500 h.
Proof.
  unfold box_score. unfold_M. unfold is_error_500.
  pose proof error_body_jsonify as E.
  destruct (get_json req) as [data|e]; [|intros [= <- <-]; right; right; by split].
  destruct (negb (truthy data)); simpl;
    [intros [= <- <-]; right; left; by split|].
  destruct (py_contains "future_box_info" data) as [[|]|e]; simpl;
    [|intros [= <- <-]; right; left; by split
     |intros [= <- <-]; right; right; by split].
  destruct (py_get data _ _) as [hd|e]; [|intros [= <- <-]; right; right; by split].
  destruct (py_getitem data _) as [v|e]; [|intros [= <- <-]; right; right; by split].
  destruct (predict_box_cac _ _ _ _ _ _) as [[cac|e] log1];
    intros [= <- <-]; [left|right; right; by split].
  simpl. unfold jsonify.
  split; [done|]. split; [by rewrite lookup_singleton_eq | by rewrite lookup_singleton_ne].
Qed.

(** One call among the five that is not accepted makes the answer a 500. *)
Lemma unaccepted_is_500 req i :
  has_future_box_info req → (i < 5)%nat → (∀ x, ¬ accepted (remote i) x) →
  ∃ h log, box_score key compensated remote req [] = (Ok h, log) ∧ is_error_500 h.
Proof.
  intros (m & v & Hj & Hv) Hi Hno.
  rewrite (box_score_valid _ _ _ _ Hj Hv).
  destruct (predict_box_cac _ _ _ _ _ _) as [[cac|e] log'] eqn:Hp.
  - exfalso. apply predict_box_cac_inv in Hp as (x0 & x1 & x2 & x3 & x4 & H).
    simpl in H. destruct H as (H0 & H1 & H2 & H3 & H4 & _).
    destruct i as [|[|[|[|[|i]]]]]; [by eapply Hno..|lia].
  - eexists _, _. split; [reflexivity|]. split; [done|].
    apply error_body_jsonify.
Qed.

End Handler.

(** ** The claims *)

(** C1. When the body has [future_box_info] and each of the five calls
    returns status 200 with a content that, stripped, parses as a number
    not below zero, the answer is 200 with [predicted_cac] the two-decimal
    format of the mean of the five numbers, the mean being Python's
    [sum(cacs) / len(cacs)] in binary64. In particular the contents 10.00,
    20.00, 30.00, 15.00, 25.00 give 20.00 and five contents 10.50 give
    10.50. *)
Theorem predicted_cac_is_formatted_mean :
  (∀ key compensated remote req m v x0 x1 x2 x3 x4,
      get_json req = Ok (JObj m) → m !! "future_box_info" = Some v →
      accepted (remote 0%nat) x0 → accepted (remote 1%nat) x1 →
      accepted (remote 2%nat) x2 → accepted (remote 3%nat) x3 →
      accepted (remote 4%nat) x4 →
      box_score key compensated remote req []
      = (Ok {| status := 200;
               body := jsonify "predicted_cac"
                         [Lit (PyFormat.format_2f
                                 (div (fsum compensated x0 [x1; x2; x3; x4]) (of_Z 5)))] |},
         replicate 5 (the_call key (historical_data_of m) v)))
  ∧ (∀ key compensated info,
        (box_score key compensated
           (scripted ["10.00"; "20.00"; "30.00"; "15.00"; "25.00"])
           (request_for info) []).1
        = Ok {| status := 200; body := jsonify "predicted_cac" [Lit "20.00"] |})
  ∧ (∀ key compensated info,
        (box_score key compensated
           (scripted ["10.50"; "10.50"; "10.50"; "10.50"; "10.50"])
           (request_for info) []).1
        = Ok {| status := 200; body := jsonify "predicted_cac" [Lit "10.50"] |}).
Proof.
  assert (G : ∀ key compensated remote req m v x0 x1 x2 x3 x4,
      get_json req = Ok (JObj m) → m !! "future_box_info" = Some v →
      accepted (remote 0%nat) x0 → accepted (remote 1%nat) x1 →
      accepted (remote 2%nat) x2 → accepted (remote 3%nat) x3 →
      accepted (remote 4%nat) x4 →
      box_score key compensated remote req []
      = (Ok {| status := 200;
               body := jsonify "predicted_cac"
                         [Lit (PyFormat.format_2f
                                 (div (fsum compensated x0 [x1; x2; x3; x4]) (of_Z 5)))] |},
         replicate 5 (the_call key (historical_data_of m) v))).
  { intros key compensated remote req m v x0 x1 x2 x3 x4 Hj Hv H0 H1 H2 H3 H4.
    rewrite (box_score_valid _ _ _ _ _ _ _ Hj Hv).
    by rewrite (predict_box_cac_ok _ _ _ _ _ [] x0 x1 x2 x3 x4). }
  split; [exact G|].
  split; intros key compensated info.
  - erewrite (G key compensated _ (request_for info));
      [|reflexivity|apply lookup_singleton_eq|accept_scripted..].
    simpl. destruct compensated; vm_compute; reflexivity.
  - erewrite (G key compensated _ (request_for info));
      [|reflexivity|apply lookup_singleton_eq|accept_scripted..].
    simpl. destruct compensated; vm_compute; reflexivity.
Qed.

Lemma predicted_cac_is_formatted_mean_witness :
  box_score (Some "sk-test") true
    (scripted ["10.00"; "20.00"; "30.00"; "15.00"; "25.00"])
    (request_for "box") []
  = (Ok {| status := 200; body := jsonify "predicted_cac" [Lit "20.00"] |},
     replicate 5 (the_call (Some "sk-test") (JStr "No historical data provided")
                    (JStr "box"))).
Proof.
  eapply eq_trans.
  - eapply (proj1 predicted_cac_is_formatted_mean);
      [reflexivity|apply lookup_singleton_eq|accept_scripted..].
  - vm_compute. reflexivity.
Defined.

(** C2, as the code has it. With [future_box_info] in the body, if one of
    the five responses has a stripped content that is empty, that [float]
    does not parse, or that parses to a number below zero, the answer is 500
    with an [error] field and no [predicted_cac]: nothing is averaged over
    the other responses. The test of the content is [float] itself, not
    whether the text is a numeral. *)
Theorem bad_content_aborts :
  ∀ key compensated remote req i,
    has_future_box_info req → (i < 5)%nat → bad_content (remote i) →
    ∃ h log, box_score key compensated remote req [] = (Ok h, log) ∧ is_error_500 h.
Proof.
  intros key compensated remote req i Hreq Hi Hbad.
  apply (unaccepted_is_500 _ _ _ _ i Hreq Hi).
  intros x. by apply rejected_not_accepted.
Qed.

Lemma bad_content_aborts_witness :
  ∃ h log,
    box_score (Some "sk-test") false
      (scripted ["10.00"; "20.00"; "-3.50"; "15.00"; "25.00"])
      (request_for "box") []
    = (Ok h, log) ∧ is_error_500 h.
Proof.
  apply (bad_content_aborts _ _ _ _ 2%nat).
  - eexists _, _. split; [reflexivity|apply lookup_singleton_eq].
  - lia.
  - eexists _, _, _. split; [reflexivity|]. split; [reflexivity|].
    split; [vm_compute; reflexivity|].
    right. right. eexists. split; vm_compute; reflexivity.
Defined.

(** C2 fails as stated: [nan] and [inf] are not numerals, but [float]
    parses both and neither value is below zero. The response is accepted,
    the five values are averaged, and the answer is 200 with the
    [predicted_cac] [nan] or [inf]. *)
Lemma nan_and_inf_are_accepted :
  box_score (Some "sk-test") false
    (scripted ["10.00"; "20.00"; "nan"; "15.00"; "25.00"])
    (request_for "box") []
  = (Ok {| status := 200; body := jsonify "predicted_cac" [Lit "nan"] |},
     replicate 5 (the_call (Some "sk-test") (JStr "No historical data provided")
                    (JStr "box")))
  ∧ box_score (Some "sk-test") false
      (scripted ["10.00"; "20.00"; "30.00"; "15.00"; "inf"])
      (request_for "box") []
    = (Ok {| status := 200; body := jsonify "predicted_cac" [Lit "inf"] |},
       replicate 5 (the_call (Some "sk-test") (JStr "No historical data provided")
                      (JStr "box"))).
Proof. split; vm_compute; reflexivity. Qed.

(** C3, as the code has it. When [get_json] returns [None], a falsy value,
    or a dict without the key [future_box_info], the answer is 400 with an
    [error] field, and no call is sent. When [get_json] raises instead of
    returning, as it does for a request without a body, the exception is
    caught by the handler: the answer is 500 with the text of the exception
    in the [error] field, and again no call is sent. *)
Theorem missing_field_is_400 :
  ∀ key compensated remote req log,
    (∀ data,
        get_json req = Ok data → lacks_future_box_info data →
        box_score key compensated remote req log
        = (Ok {| status := 400;
                 body := jsonify "error" [Lit "Missing future_box_info"] |},
           log))
    ∧ (∀ e,
          get_json req = Raise e →
          box_score key compensated remote req log
          = (Ok {| status := 500; body := jsonify "error" (exn_str e) |}, log)).
Proof.
  intros key compensated remote req log. split.
  - intros data Hj Hm.
    apply (box_score_missing _ _ _ _ data); [done|].
    by apply lacks_is_field_missing.
  - intros e He. unfold box_score. unfold_M. by rewrite He.
Qed.

Lemma missing_field_is_400_witness :
  box_score (Some "sk-test") false (scripted [])
    {| get_json := Ok (JObj {[ "historical_data" := JStr "past boxes" ]}) |} []
  = (Ok {| status := 400; body := jsonify "error" [Lit "Missing future_box_info"] |}, [])
  ∧ box_score (Some "sk-test") false (scripted []) bodyless_request []
    = (Ok {| status := 500;
             body := jsonify "error" (exn_str (mk_exn UnsupportedMediaType
                       [Lit "415 Unsupported Media Type: Did not attempt to load JSON data because the request Content-Type was not 'application/json'."])) |},
       []).
Proof.
  split.
  - apply (proj1 (missing_field_is_400 _ _ _ _ _)
             (JObj {[ "historical_data" := JStr "past boxes" ]})).
    + reflexivity.
    + right. right. eexists. split; [reflexivity|]. vm_compute. reflexivity.
  - apply (proj2 (missing_field_is_400 _ _ _ _ _)). reflexivity.
Defined.

(** C3 fails as stated: a POST whose body is empty or absent makes
    [get_json] raise, which happens inside the handler's [try], and the
    answer is 500, not 400. *)
Lemma empty_body_is_500 :
  box_score (Some "sk-test") false (scripted []) empty_body_request []
  = (Ok {| status := 500;
           body := jsonify "error"
                     [Lit "400 Bad Request: The browser (or proxy) sent a request that this server could not understand."] |},
     [])
  ∧ box_score (Some "sk-test") false (scripted []) bodyless_request []
    = (Ok {| status := 500;
             body := jsonify "error"
                       [Lit "415 Unsupported Media Type: Did not attempt to load JSON data because the request Content-Type was not 'application/json'."] |},
       []).
Proof. split; reflexivity. Qed.

(** C4. With [future_box_info] in the body, if one of the five calls returns
    a status outside 200..299, the answer is 500 with an [error] field. *)
Theorem non_2xx_is_500 :
  ∀ key compensated remote req i r,
    has_future_box_info req → (i < 5)%nat →
    remote i = Ok r → ¬ (200 ≤ status_code r ≤ 299) →
    ∃ h log, box_score key compensated remote req [] = (Ok h, log) ∧ is_error_500 h.
Proof.
  intros key compensated remote req i r Hreq Hi Hr Hs.
  apply (unaccepted_is_500 _ _ _ _ i Hreq Hi).
  intros x (r' & doc & cac & Hr' & Hs' & _).
  rewrite Hr in Hr'. injection Hr' as <-. lia.
Qed.

Lemma non_2xx_is_500_witness :
  ∃ h log,
    box_score (Some "sk-test") false
      (fun n => match n with
                | 3%nat => Ok (completion 503 "10.00")
                | _ => Ok (completion 200 "10.00")
                end)
      (request_for "box") []
    = (Ok h, log) ∧ is_error_500 h.
Proof.
  apply (non_2xx_is_500 _ _ _ _ 3%nat (completion 503 "10.00")).
  - eexists _, _. split; [reflexivity|apply lookup_singleton_eq].
  - lia.
  - reflexivity.
  - simpl. lia.
Defined.

(** C5, as the code has it. [box_score] always answers, with 200, 400 or
    500, and an answer with an [error] field has status 400 or 500. The
    status is 400 exactly when [get_json] returns a falsy value or a
    container without [future_box_info]. It is 500 whenever an exception is
    raised while the request is handled: when [get_json] itself raises, as
    it does for a body that does not decode, and, for a body with
    [future_box_info], when one of the five calls is not accepted. *)
Theorem failures_are_400_or_500 :
  ∀ key compensated remote req,
    ∃ h log,
      box_score key compensated remote req [] = (Ok h, log) ∧
      (status h = 200 ∨ status h = 400 ∨ status h = 500) ∧
      (is_Some (body h !! "error") → status h = 400 ∨ status h = 500) ∧
      (status h = 400 ↔ ∃ data, get_json req = Ok data ∧ field_missing data) ∧
      ((∃ e, get_json req = Raise e) → is_error_500 h) ∧
      (has_future_box_info req →
       (∃ i, (i < 5)%nat ∧ ∀ x, ¬ accepted (remote i) x) → is_error_500 h).
Proof.
  intros key compensated remote req.
  destruct (box_score_answers key compensated remote req []) as (h & log & Hb).
  exists h, log. split; [done|].
  pose proof (box_score_statuses _ _ _ _ _ _ _ Hb) as Hst.
  split; [|split; [|split; [|split]]].
  - destruct Hst as [(-> & _) | [(-> & _) | (-> & _)]]; auto.
  - intros [t Ht]. destruct Hst as [(_ & _ & Hn) | [(-> & _) | (-> & _)]]; auto.
    rewrite Hn in Ht. discriminate.
  - split.
    + by apply (box_score_400_inv _ _ _ _ _ _ _ Hb).
    + intros (data & Hj & Hm).
      rewrite (box_score_missing _ _ _ _ _ _ Hj Hm) in Hb.
      by injection Hb as <- <-.
  - intros [e He]. unfold box_score in Hb. unfold_M. rewrite He in Hb.
    injection Hb as <- <-. split; [done|]. apply error_body_jsonify.
  - intros Hreq (i & Hi & Hno).
    destruct (unaccepted_is_500 key compensated remote req i Hreq Hi Hno)
      as (h' & log' & Hb' & H500).
    rewrite Hb in Hb'. by injection Hb' as -> ->.
Qed.

(** C5 fails as stated: a request body that does not decode as JSON is
    answered with 500, not 400. *)
Lemma malformed_body_is_500 :
  box_score (Some "sk-test") false (scripted []) malformed_request []
  = (Ok {| status := 500;
           body := jsonify "error"
                     [Lit "400 Bad Request: The browser (or proxy) sent a request that this server could not understand."] |},
     []).
Proof. reflexivity. Qed.

(** C6. [health_check] answers 200 with [{"status": "healthy"}] and sends
    nothing, whatever has been sent before; it reads neither the remote nor
    the environment. *)
Theorem health_is_200 :
  ∀ log, health_check log
         = (Ok {| status := 200; body := jsonify "status" [Lit "healthy"] |}, log).
Proof. reflexivity. Qed.

(** C7. When the answer is 200, exactly five calls have been sent, one after
    the other, and each carries the temperature 0.2 and the seed 42. *)
Theorem five_calls_with_fixed_seed :
  ∀ key compensated remote req h log,
    box_score key compensated remote req [] = (Ok h, log) → status h = 200 →
    length log = 5%nat ∧
    (∀ c, c ∈ log →
          url c = OPENAI_API_URL ∧ temperature (json c) = temperature_0_2 ∧
          seed (json c) = 42) ∧
    PyNum.float_of_str "0.2" = Ok temperature_0_2.
Proof.
  intros key compensated remote req h log Hb Hs.
  apply box_score_200_inv in Hb as (m & v & cac & _ & _ & Hp & _); [|done].
  apply predict_box_cac_inv in Hp as (x0 & x1 & x2 & x3 & x4 & _ & _ & _ & _ & _ & _ & ->).
  split; [reflexivity|]. split; [|vm_compute; reflexivity].
  intros c Hc. rewrite app_nil_l in Hc. apply elem_of_replicate in Hc as [-> _]. done.
Qed.

Lemma five_calls_with_fixed_seed_witness :
  length (box_score (Some "sk-test") true
            (scripted ["10.50"; "10.50"; "10.50"; "10.50"; "10.50"])
            (request_for "box") []).2 = 5%nat.
Proof.
  exact (proj1 (five_calls_with_fixed_seed (Some "sk-test") true
                  (scripted ["10.50"; "10.50"; "10.50"; "10.50"; "10.50"])
                  (request_for "box") _ _ eq_refl eq_refl)).
Defined.

(** C8. Without [OPENAI_API_KEY] in the environment the script raises
    [ValueError] before [app.run] is entered. Without [PORT], and with a
    key, [app.run] is entered on port 5000. *)
Theorem startup_checks :
  ∀ environ : gmap string string,
    (environ !! "OPENAI_API_KEY" = None →
     main environ = Crash (mk_exn ValueError [Lit "OPENAI_API_KEY not set"])) ∧
    (environ !! "PORT" = None →
     ∀ k, environ !! "OPENAI_API_KEY" = Some k → k ≠ "" →
          main environ = AppRun "0.0.0.0" 5000).
Proof.
  intros environ. unfold main. split.
  - intros ->. reflexivity.
  - intros -> k -> Hk. destruct k as [|c k]; [done|]. reflexivity.
Qed.

Lemma startup_checks_witness :
  main ∅ = Crash (mk_exn ValueError [Lit "OPENAI_API_KEY not set"]) ∧
  main {[ "OPENAI_API_KEY" := "sk-test" ]} = AppRun "0.0.0.0" 5000.
Proof.
  split.
  - apply (proj1 (startup_checks ∅)). reflexivity.
  - eapply (proj2 (startup_checks {[ "OPENAI_API_KEY" := "sk-test" ]}));
      [vm_compute; reflexivity | vm_compute; reflexivity | discriminate].
Defined.

(** C9. A 200 answer needs status exactly 200 from each of the five calls;
    with [future_box_info] in the body, any other status, 201 and 204
    included, makes the answer a 500. *)
Theorem only_status_200_succeeds :
  ∀ key compensated remote req,
    (∀ h log, box_score key compensated remote req [] = (Ok h, log) → status h = 200 →
              ∀ i, (i < 5)%nat → ∃ r, remote i = Ok r ∧ status_code r = 200) ∧
    (∀ i r, has_future_box_info req → (i < 5)%nat →
            remote i = Ok r → status_code r ≠ 200 →
            ∃ h log, box_score key compensated remote req [] = (Ok h, log) ∧
                     is_error_500 h).
Proof.
  intros key compensated remote req. split.
  - intros h log Hb Hs i Hi.
    apply box_score_200_inv in Hb as (m & v & cac & _ & _ & Hp & _); [|done].
    apply predict_box_cac_inv in Hp as (x0 & x1 & x2 & x3 & x4 & H).
    simpl in H. destruct H as (H0 & H1 & H2 & H3 & H4 & _).
    assert (∃ x, accepted (remote i) x) as (x & r & doc & c & Hr & Hst & _).
    { destruct i as [|[|[|[|[|i]]]]]; [eauto..|lia]. }
    eauto.
  - intros i r Hreq Hi Hr Hs.
    apply (unaccepted_is_500 _ _ _ _ i Hreq Hi).
    intros x (r' & doc & cac & Hr' & Hs' & _).
    rewrite Hr in Hr'. injection Hr' as <-. done.
Qed.

Lemma only_status_200_succeeds_witness :
  (∃ h log,
      box_score (Some "sk-test") false (fun _ => Ok (completion 201 "10.00"))
        (request_for "box") []
      = (Ok h, log) ∧ is_error_500 h) ∧
  (∃ h log,
      box_score (Some "sk-test") false
        (fun n => match n with
                  | 4%nat => Ok (completion 204 "10.00")
                  | _ => Ok (completion 200 "10.00")
                  end)
        (request_for "box") []
      = (Ok h, log) ∧ is_error_500 h).
Proof.
  split.
  - apply (proj2 (only_status_200_succeeds _ _ _ _) 0%nat (completion 201 "10.00")).
    + eexists _, _. split; [reflexivity|apply lookup_singleton_eq].
    + lia.
    + reflexivity.
    + discriminate.
  - apply (proj2 (only_status_200_succeeds _ _ _ _) 4%nat (completion 204 "10.00")).
    + eexists _, _. split; [reflexivity|apply lookup_singleton_eq].
    + lia.
    + reflexivity.
    + discriminate.
Defined.

(** C10. When the loop of five runs ends without raising, [cacs] has five
    elements: [not cacs] is false, so the branch that raises
    [No valid CAC values collected] is not taken, and [sum(cacs) / len(cacs)]
    does not raise. *)
Theorem loop_collects_five :
  ∀ remote headers prompt compensated log cacs log',
    for_range 5 (run_once remote headers prompt) [] log = (Ok cacs, log') →
    length cacs = 5%nat ∧
    negb (list_truthy cacs) = false ∧
    ∃ avg, py_truediv (py_sum compensated cacs) (length cacs) = Ok avg.
Proof.
  intros remote headers prompt compensated log cacs log' H.
  apply for_range_inv in H as (xs & Hlen & -> & _ & _).
  destruct xs as [|x0 [|x1 [|x2 [|x3 [|x4 [|x5 xs]]]]]]; try discriminate.
  simpl. split; [done|]. split; [done|]. eexists. reflexivity.
Qed.

Lemma loop_collects_five_witness :
  ∃ cacs log',
    for_range 5 (run_once (scripted ["10.00"; "20.00"; "30.00"; "15.00"; "25.00"])
                   (make_headers None) (make_prompt JNull (JStr "box"))) [] []
    = (Ok cacs, log') ∧
    length cacs = 5%nat ∧
    negb (list_truthy cacs) = false ∧
    ∃ avg, py_truediv (py_sum true cacs) (length cacs) = Ok avg.
Proof.
  eexists _, _. split.
  - vm_compute. reflexivity.
  - eapply (loop_collects_five
              (scripted ["10.00"; "20.00"; "30.00"; "15.00"; "25.00"])
              (make_headers None) (make_prompt JNull (JStr "box")) true []).
    vm_compute. reflexivity.
Defined.

(** * Further properties of the handlers *)

(** ** One run of the loop *)

Lemma run_once_judge remote headers prompt cacs log :
  run_once remote headers prompt cacs log
  = (match judge (remote (length log)) with
     | Ok x => Ok (cacs ++ [x])
     | Raise e => Raise e
     end,
     log ++ [call_with headers prompt]).
Proof.
  unfold run_once, judge. unfold_M.
  destruct (remote (length log)) as [r|e]; [|reflexivity].
  destruct (negb (status_code r =? 200)); [reflexivity|].
  destruct (response_json r) as [doc|e]; [|reflexivity].
  destruct (stripped_content doc) as [cac|e]; [|reflexivity].
  destruct (negb (truthy (JStr cac))); [reflexivity|].
  destruct (PyNum.float_of_str cac) as [x|e].
  - destruct (ltb x zero); reflexivity.
  - destruct (is_ValueError (exn_cls e)); reflexivity.
Qed.

Lemma float_of_str_raises_ValueError s e :
  PyNum.float_of_str s = Raise e → exn_cls e = ValueError.
Proof.
  unfold PyNum.float_of_str.
  destruct (PyNum.drop_underscores _ _); [|by intros [= <-]].
  destruct (String.eqb _ _); [by intros [= <-]|].
  destruct (PyNum.parse_decimal _); [discriminate|].
  destruct (PyNum.parse_inf_or_nan _); [discriminate|by intros [= <-]].
Qed.

Lemma judge_accepted o x : judge o = Ok x ↔ accepted o x.
Proof.
  unfold judge, accepted. split.
  - destruct o as [r|e]; [|discriminate].
    destruct (status_code r =? 200) eqn:Hs; [|discriminate]. simpl.
    destruct (response_json r) as [doc|e] eqn:Hj; [|discriminate].
    destruct (stripped_content doc) as [cac|e] eqn:Hc; [|discriminate].
    destruct (truthy (JStr cac)); [|discriminate]. simpl.
    destruct (PyNum.float_of_str cac) as [y|e] eqn:Hf.
    + destruct (ltb y zero) eqn:Hlt; [discriminate|]. intros [= <-].
      exists r, doc, cac. apply Z.eqb_eq in Hs. done.
    + destruct (is_ValueError (exn_cls e)); discriminate.
  - intros (r & doc & cac & -> & Hs & Hj & Hc & Hf & Hlt).
    rewrite Hs. simpl. rewrite Hj, Hc, (float_of_str_nonempty _ _ Hf). simpl.
    by rewrite Hf, Hlt.
Qed.

Lemma unaccepted_judge o : (∀ x, ¬ accepted o x) → ∃ e, judge o = Raise e.
Proof.
  intros Hno. destruct (judge o) as [x|e] eqn:Hj; [|eauto].
  apply judge_accepted in Hj. by destruct (Hno x).
Qed.

Section LoopFailure.

Variable remote : nat → result response.
Variable headers : gmap string fstring.
Variable prompt : fstring.

(** The loop stops at the first call that is not accepted. *)
Lemma for_range_first_failure n : ∀ k cacs log e,
  (k < n)%nat →
  (∀ i, (i < k)%nat → ∃ x, accepted (remote (length log + i)) x) →
  judge (remote (length log + k)) = Raise e →
  for_range n (run_once remote headers prompt) cacs log
  = (Raise e, log ++ replicate (S k) (call_with headers prompt)).
Proof.
  induction n as [|n IH]; intros k cacs log e Hk Hacc Hfail; [lia|].
  simpl. unfold bind at 1. rewrite run_once_judge.
  destruct k as [|k].
  - rewrite Nat.add_0_r in Hfail. by rewrite Hfail.
  - destruct (Hacc 0%nat ltac:(lia)) as [x Hx].
    rewrite Nat.add_0_r in Hx. apply judge_accepted in Hx. rewrite Hx.
    rewrite (IH k _ _ e); [|lia| |].
    + by rewrite <- app_assoc.
    + intros i Hi. rewrite length_app. simpl.
      replace (length log + 1 + i)%nat with (length log + S i)%nat by lia.
      apply Hacc. lia.
    + rewrite length_app. simpl.
      by replace (length log + 1 + k)%nat with (length log + S k)%nat by lia.
Qed.

(** The loop sends between one and [n] calls, all the same. *)
Lemma for_range_log n : ∀ cacs log,
  ∃ k, (k ≤ n)%nat ∧ (0 < n → 0 < k)%nat ∧
       (for_range n (run_once remote headers prompt) cacs log).2
       = log ++ replicate k (call_with headers prompt).
Proof.
  induction n as [|n IH]; intros cacs log.
  - exists 0%nat. simpl. rewrite app_nil_r. repeat split; lia.
  - simpl. unfold bind at 1. rewrite run_once_judge.
    destruct (judge (remote (length log))) as [x|e].
    + destruct (IH (cacs ++ [x]) (log ++ [call_with headers prompt])) as (k & Hk & _ & Hl).
      exists (S k). rewrite Hl. simpl. rewrite <- app_assoc.
      repeat split; lia.
    + exists 1%nat. simpl. repeat split; lia.
Qed.

End LoopFailure.

Section Failures.

Variable key : option string.
Variable compensated : bool.
Variable remote : nat → result response.

(** With [future_box_info] in the body, the exception of the first call
    that is not accepted decides the answer, and no further call is sent. *)
Lemma box_score_first_failure req m v k e :
  get_json req = Ok (JObj m) → m !! "future_box_info" = Some v →
  (k < 5)%nat → accepted_before remote k → judge (remote k) = Raise e →
  box_score key compensated remote req []
  = (Ok (prediction_failed e),
     replicate (S k) (the_call key (historical_data_of m) v)).
Proof.
  intros Hj Hv Hk Hacc Hfail.
  rewrite (box_score_valid _ _ _ _ _ _ _ Hj Hv), predict_box_cac_unfold.
  by rewrite (for_range_first_failure _ _ _ 5 k [] [] e).
Qed.

End Failures.

(** ** The calls that are sent *)

(** X1. With [future_box_info] in the body, when the first [k] calls are
    accepted and call [k] (with [k < 5]) is not, exactly [k + 1] calls are
    sent and the answer is 500 with an error that starts with
    [Prediction error: ]. *)
Theorem calls_stop_at_first_failure :
  ∀ key compensated remote req m v k,
    get_json req = Ok (JObj m) → m !! "future_box_info" = Some v →
    (k < 5)%nat → accepted_before remote k → (∀ x, ¬ accepted (remote k) x) →
    ∃ t, box_score key compensated remote req []
         = (Ok {| status := 500; body := jsonify "error" (Lit "Prediction error: " :: t) |},
            replicate (S k) (the_call key (historical_data_of m) v)).
Proof.
  intros key compensated remote req m v k Hj Hv Hk Hacc Hno.
  destruct (unaccepted_judge _ Hno) as [e He].
  exists (exn_str e).
  by rewrite (box_score_first_failure _ _ _ _ _ _ _ _ Hj Hv Hk Hacc He).
Qed.

Lemma calls_stop_at_first_failure_witness :
  ∃ t, box_score (Some "sk-test") false
         (scripted ["10.00"; "20.00"; "n/a"; "15.00"; "25.00"])
         (request_for "box") []
       = (Ok {| status := 500; body := jsonify "error" (Lit "Prediction error: " :: t) |},
          replicate 3 (the_call (Some "sk-test")
                         (historical_data_of {[ "future_box_info" := JStr "box" ]})
                         (JStr "box"))).
Proof.
  apply (calls_stop_at_first_failure _ _ _ _ _ _ 2%nat).
  - reflexivity.
  - apply lookup_singleton_eq.
  - lia.
  - intros i Hi. destruct i as [|[|i]]; [eexists; accept_scripted..|lia].
  - intros x Hx. apply judge_accepted in Hx. vm_compute in Hx. discriminate.
Defined.

(** X2. [box_score] sends nothing unless the body is a dict with
    [future_box_info]; with it, it sends between one and five calls, all
    equal to the call built from the key and the body. *)
Theorem at_most_five_identical_calls :
  ∀ key compensated remote req log,
    (¬ has_future_box_info req →
     (box_score key compensated remote req log).2 = log) ∧
    (∀ m v, get_json req = Ok (JObj m) → m !! "future_box_info" = Some v →
            ∃ k, (1 ≤ k ≤ 5)%nat ∧
                 (box_score key compensated remote req log).2
                 = log ++ replicate k (the_call key (historical_data_of m) v)).
Proof.
  intros key compensated remote req log. split.
  - intros Hno. unfold box_score. unfold_M.
    destruct (get_json req) as [data|e] eqn:Hj; [|reflexivity].
    destruct (negb (truthy data)); simpl; [reflexivity|].
    destruct (py_contains "future_box_info" data) as [[|]|e]; simpl; [|reflexivity..].
    destruct (py_get data _ _) as [hd|e] eqn:Hg; [|reflexivity].
    destruct (py_getitem data _) as [v|e] eqn:Hi; [|reflexivity].
    exfalso. apply Hno. destruct data; try discriminate.
    simpl in Hi. destruct (m !! "future_box_info") as [w|] eqn:Hm; [|discriminate].
    by exists m, w.
  - intros m v Hj Hv.
    rewrite (box_score_valid _ _ _ _ _ _ _ Hj Hv), predict_box_cac_unfold.
    destruct (for_range_log remote (make_headers key)
                (make_prompt (historical_data_of m) v) 5 [] log)
      as (k & Hk & Hpos & Hl).
    exists k. split; [lia|].
    destruct (for_range 5 _ [] log) as [[cacs|e] log'] eqn:Hloop; simpl in Hl; subst log'.
    + destruct (negb (list_truthy cacs)); [reflexivity|].
      destruct (py_truediv _ _); reflexivity.
    + reflexivity.
Qed.

Lemma at_most_five_identical_calls_witness :
  (box_score (Some "sk-test") false (scripted ["10.00"])
     {| get_json := Ok (JArr [JStr "future_box_info"]) |} []).2 = [].
Proof.
  apply (proj1 (at_most_five_identical_calls (Some "sk-test") false (scripted ["10.00"])
                  {| get_json := Ok (JArr [JStr "future_box_info"]) |} [])).
  intros (m & v & Hj & _). discriminate.
Defined.

(** ** What the error field says *)

(** X3. With [future_box_info] in the body, when the first call that is not
    accepted returned a status other than 200, the error field carries that
    status and the text of the upstream response. *)
Theorem upstream_error_is_reported :
  ∀ key compensated remote req k r,
    has_future_box_info req → (k < 5)%nat → accepted_before remote k →
    remote k = Ok r → status_code r ≠ 200 →
    (box_score key compensated remote req []).1
    = Ok {| status := 500;
            body := jsonify "error"
                      [Lit "Prediction error: "; Lit "OpenAI API error: ";
                       Fmt (JInt (status_code r)); Lit " - ";
                       Lit (response_text r)] |}.
Proof.
  intros key compensated remote req k r (m & v & Hj & Hv) Hk Hacc Hr Hs.
  assert (judge (remote k)
          = Raise (mk_exn Exception
                     [Lit "OpenAI API error: "; Fmt (JInt (status_code r));
                      Lit " - "; Lit (response_text r)])) as He.
  { unfold judge. rewrite Hr. by rewrite (proj2 (Z.eqb_neq _ _) Hs). }
  by rewrite (box_score_first_failure _ _ _ _ _ _ k _ Hj Hv Hk Hacc He).
Qed.

Lemma upstream_error_is_reported_witness :
  (box_score (Some "sk-test") false
     (fun _ => Ok {| status_code := 429; response_text := "rate limited";
                     response_json := Ok JNull |})
     (request_for "box") []).1
  = Ok {| status := 500;
          body := jsonify "error"
                    [Lit "Prediction error: "; Lit "OpenAI API error: ";
                     Fmt (JInt 429); Lit " - "; Lit "rate limited"] |}.
Proof.
  apply (upstream_error_is_reported _ _ _ _ 0%nat
           {| status_code := 429; response_text := "rate limited";
              response_json := Ok JNull |}).
  - eexists _, _. split; [reflexivity|apply lookup_singleton_eq].
  - lia.
  - intros i Hi. lia.
  - reflexivity.
  - discriminate.
Defined.

(** X4. With [future_box_info] in the body, when the first call that is not
    accepted has a non-empty stripped content [cac] that [float] rejects or
    parses below zero, the error is [Prediction error: Invalid CAC: cac]:
    the text [CAC cannot be negative] never reaches the client. *)
Theorem invalid_cac_is_reported :
  ∀ key compensated remote req k r doc cac,
    has_future_box_info req → (k < 5)%nat → accepted_before remote k →
    remote k = Ok r → status_code r = 200 → response_json r = Ok doc →
    stripped_content doc = Ok cac → cac ≠ "" →
    ((∃ e, PyNum.float_of_str cac = Raise e) ∨
     (∃ x, PyNum.float_of_str cac = Ok x ∧ ltb x zero = true)) →
    (box_score key compensated remote req []).1
    = Ok {| status := 500;
            body := jsonify "error"
                      [Lit "Prediction error: "; Lit "Invalid CAC: "; Lit cac] |}.
Proof.
  intros key compensated remote req k r doc cac (m & v & Hj & Hv) Hk Hacc
    Hr Hs Hd Hc Hne Hbad.
  assert (judge (remote k)
          = Raise (mk_exn ValueError [Lit "Invalid CAC: "; Lit cac])) as He.
  { unfold judge. rewrite Hr, Hs. simpl. rewrite Hd, Hc.
    replace (truthy (JStr cac)) with true.
    2:{ unfold truthy. by destruct (String.eqb_spec cac ""). }
    simpl. destruct Hbad as [[e He] | (x & Hx & Hlt)].
    - rewrite He, (float_of_str_raises_ValueError _ _ He). reflexivity.
    - by rewrite Hx, Hlt. }
  by rewrite (box_score_first_failure _ _ _ _ _ _ k _ Hj Hv Hk Hacc He).
Qed.

Lemma invalid_cac_is_reported_witness :
  (box_score (Some "sk-test") true
     (scripted ["10.00"; "-3.50"; "30.00"; "15.00"; "25.00"])
     (request_for "box") []).1
  = Ok {| status := 500;
          body := jsonify "error"
                    [Lit "Prediction error: "; Lit "Invalid CAC: "; Lit "-3.50"] |}.
Proof.
  eapply (invalid_cac_is_reported _ _ _ _ 1%nat).
  - eexists _, _. split; [reflexivity|apply lookup_singleton_eq].
  - lia.
  - intros i Hi. destruct i as [|i]; [eexists; accept_scripted|lia].
  - reflexivity.
  - reflexivity.
  - reflexivity.
  - vm_compute. reflexivity.
  - discriminate.
  - right. eexists. split; vm_compute; reflexivity.
Defined.

(** X5. With [future_box_info] in the body, when the first call that is not
    accepted has status 200 and a body whose stripped content is empty, as
    it is when [choices], [message] or [content] is missing, the error is
    [Prediction error: Empty response from model]. *)
Theorem empty_content_is_reported :
  ∀ key compensated remote req k r doc,
    has_future_box_info req → (k < 5)%nat → accepted_before remote k →
    remote k = Ok r → status_code r = 200 → response_json r = Ok doc →
    stripped_content doc = Ok "" →
    (box_score key compensated remote req []).1
    = Ok {| status := 500;
            body := jsonify "error"
                      [Lit "Prediction error: "; Lit "Empty response from model"] |}.
Proof.
  intros key compensated remote req k r doc (m & v & Hj & Hv) Hk Hacc Hr Hs Hd Hc.
  assert (judge (remote k)
          = Raise (mk_exn ValueError [Lit "Empty response from model"])) as He.
  { unfold judge. by rewrite Hr, Hs, Hd, Hc. }
  by rewrite (box_score_first_failure _ _ _ _ _ _ k _ Hj Hv Hk Hacc He).
Qed.

Lemma empty_content_is_reported_witness :
  (box_score (Some "sk-test") false
     (fun _ => Ok {| status_code := 200; response_text := "{}";
                     response_json := Ok (JObj ∅) |})
     (request_for "box") []).1
  = Ok {| status := 500;
          body := jsonify "error"
                    [Lit "Prediction error: "; Lit "Empty response from model"] |}.
Proof.
  apply (empty_content_is_reported _ _ _ _ 0%nat
           {| status_code := 200; response_text := "{}";
              response_json := Ok (JObj ∅) |} (JObj ∅)).
  - eexists _, _. split; [reflexivity|apply lookup_singleton_eq].
  - lia.
  - intros i Hi. lia.
  - reflexivity.
  - reflexivity.
  - reflexivity.
  - vm_compute. reflexivity.
Defined.

(** X6. With [future_box_info] in the body, when [requests.post] raises on
    the first call that is not accepted, the answer is 500 and the error is
    [Prediction error: ] followed by the text of that exception. *)
Theorem network_error_is_reported :
  ∀ key compensated remote req k e,
    has_future_box_info req → (k < 5)%nat → accepted_before remote k →
    remote k = Raise e →
    (box_score key compensated remote req []).1
    = Ok {| status := 500;
            body := jsonify "error" ([Lit "Prediction error: "] ++ exn_str e) |}.
Proof.
  intros key compensated remote req k e (m & v & Hj & Hv) Hk Hacc Hr.
  assert (judge (remote k) = Raise e) as He.
  { unfold judge. by rewrite Hr. }
  by rewrite (box_score_first_failure _ _ _ _ _ _ k _ Hj Hv Hk Hacc He).
Qed.

Lemma network_error_is_reported_witness :
  (box_score (Some "sk-test") false (scripted ["10.00"; "20.00"])
     (request_for "box") []).1
  = Ok {| status := 500;
          body := jsonify "error" [Lit "Prediction error: "; Lit "connection refused"] |}.
Proof.
  apply (network_error_is_reported _ _ _ _ 2%nat
           (mk_exn RequestException [Lit "connection refused"])).
  - eexists _, _. split; [reflexivity|apply lookup_singleton_eq].
  - lia.
  - intros i Hi. destruct i as [|[|i]]; [eexists; accept_scripted..|lia].
  - reflexivity.
Defined.

(** ** What a 200 answer carries *)

(** X7. A 200 answer is only given to a body with [future_box_info] after
    five accepted calls, and its [predicted_cac] is the formatted mean of
    the five accepted numbers. *)
Theorem success_carries_the_mean :
  ∀ key compensated remote req h log,
    box_score key compensated remote req [] = (Ok h, log) → status h = 200 →
    has_future_box_info req ∧
    ∃ x0 x1 x2 x3 x4,
      accepted (remote 0%nat) x0 ∧ accepted (remote 1%nat) x1 ∧
      accepted (remote 2%nat) x2 ∧ accepted (remote 3%nat) x3 ∧
      accepted (remote 4%nat) x4 ∧
      body h = jsonify "predicted_cac"
                 [Lit (PyFormat.format_2f
                         (div (fsum compensated x0 [x1; x2; x3; x4]) (of_Z 5)))].
Proof.
  intros key compensated remote req h log Hb Hs.
  apply box_score_200_inv in Hb as (m & v & cac & Hj & Hv & Hp & ->); [|done].
  split; [by exists m, v|].
  apply predict_box_cac_inv in Hp as (x0 & x1 & x2 & x3 & x4 & H).
  simpl in H. destruct H as (H0 & H1 & H2 & H3 & H4 & -> & _).
  by exists x0, x1, x2, x3, x4.
Qed.

Lemma success_carries_the_mean_witness :
  has_future_box_info (request_for "box") ∧
  ∃ x0 x1 x2 x3 x4,
    accepted (scripted ["1"; "2"; "3"; "4"; "5"] 0%nat) x0 ∧
    accepted (scripted ["1"; "2"; "3"; "4"; "5"] 1%nat) x1 ∧
    accepted (scripted ["1"; "2"; "3"; "4"; "5"] 2%nat) x2 ∧
    accepted (scripted ["1"; "2"; "3"; "4"; "5"] 3%nat) x3 ∧
    accepted (scripted ["1"; "2"; "3"; "4"; "5"] 4%nat) x4 ∧
    body {| status := 200; body := jsonify "predicted_cac" [Lit "3.00"] |}
    = jsonify "predicted_cac"
        [Lit (PyFormat.format_2f (div (fsum true x0 [x1; x2; x3; x4]) (of_Z 5)))].
Proof.
  eapply (success_carries_the_mean (Some "sk-test") true
            (scripted ["1"; "2"; "3"; "4"; "5"]) (request_for "box")).
  - vm_compute. reflexivity.
  - reflexivity.
Defined.

(** ** Bodies that are not dicts *)

(** X8. A decoded body that is not a dict is never predicted and no call is
    sent for it: the answer is 400 when the body is falsy, or is a list or a
    string without [future_box_info], and 500 otherwise. *)
Theorem non_dict_body_is_rejected :
  ∀ key compensated remote req data log,
    get_json req = Ok data → (∀ m, data ≠ JObj m) →
    ∃ h, box_score key compensated remote req log = (Ok h, log) ∧
         error_body (body h) ∧
         (field_missing data → status h = 400) ∧
         (¬ field_missing data → status h = 500).
Proof.
  intros key compensated remote req data log Hj Hnd.
  unfold box_score. unfold_M. rewrite Hj. unfold field_missing.
  destruct (truthy data) eqn:Ht; simpl.
  2:{ eexists. split; [reflexivity|]. split; [apply error_body_jsonify|].
      split; [done|]. intros Hn. destruct Hn. by left. }
  destruct (py_contains "future_box_info" data) as [[|]|e] eqn:Hc; simpl.
  - destruct data; try discriminate; try (by destruct (Hnd m));
      (eexists; split; [reflexivity|]; split; [apply error_body_jsonify|];
       split; [intros [?|?]; discriminate|done]).
  - eexists. split; [reflexivity|]. split; [apply error_body_jsonify|].
    split; [done|]. intros Hn. destruct Hn. by right.
  - eexists. split; [reflexivity|]. split; [apply error_body_jsonify|].
    split; [intros [?|?]; discriminate|done].
Qed.

Lemma non_dict_body_is_rejected_witness :
  ∃ h, box_score (Some "sk-test") false (scripted ["10.00"])
         {| get_json := Ok (JInt 5) |} []
       = (Ok h, []) ∧
       error_body (body h) ∧
       (field_missing (JInt 5) → status h = 400) ∧
       (¬ field_missing (JInt 5) → status h = 500).
Proof.
  apply (non_dict_body_is_rejected _ _ _ {| get_json := Ok (JInt 5) |} (JInt 5)).
  - reflexivity.
  - discriminate.
Defined.

(** ** NaN *)

Lemma add_nan_r x : add x S754_nan = S754_nan.
Proof. by destruct x. Qed.

Lemma fold_left_add_nan l : fold_left add l S754_nan = S754_nan.
Proof. induction l as [|y l IH]; [reflexivity|]. exact IH. Qed.

Lemma fold_left_add_has_nan l : ∀ a, In S754_nan l → fold_left add l a = S754_nan.
Proof.
  induction l as [|y l IH]; intros a Hin; [destruct Hin|].
  destruct Hin as [-> | Hin].
  - cbn [fold_left]. rewrite add_nan_r. apply fold_left_add_nan.
  - cbn [fold_left]. by apply IH.
Qed.

Lemma fsum_compensated_nan xs : ∀ c, fsum_compensated S754_nan c xs = S754_nan.
Proof.
  induction xs as [|x xs IH]; intros c.
  - cbn [fsum_compensated]. by destruct (negb (is_zero c) && is_finite c).
  - cbn [fsum_compensated]. apply IH.
Qed.

Lemma fsum_compensated_has_nan xs : ∀ f c,
  In S754_nan xs → fsum_compensated f c xs = S754_nan.
Proof.
  induction xs as [|x xs IH]; intros f c Hin; [destruct Hin|].
  destruct Hin as [-> | Hin].
  - cbn [fsum_compensated]. rewrite add_nan_r. apply fsum_compensated_nan.
  - cbn [fsum_compensated]. by apply IH.
Qed.

(** The sum of a list that holds a NaN is NaN, with and without compensation. *)
Lemma fsum_has_nan compensated x xs :
  In S754_nan (x :: xs) → fsum compensated x xs = S754_nan.
Proof.
  intros [-> | Hin]; unfold fsum; destruct compensated.
  - apply fsum_compensated_nan.
  - apply fold_left_add_nan.
  - by apply fsum_compensated_has_nan.
  - by apply fold_left_add_has_nan.
Qed.

(** X9. [float] parses [nan], and NaN is not below zero: with
    [future_box_info] in the body and five accepted calls of which one gave
    NaN, the answer is 200 and [predicted_cac] is the string [nan]. *)
Theorem nan_is_averaged :
  ∀ key compensated remote req x0 x1 x2 x3 x4,
    has_future_box_info req →
    accepted (remote 0%nat) x0 → accepted (remote 1%nat) x1 →
    accepted (remote 2%nat) x2 → accepted (remote 3%nat) x3 →
    accepted (remote 4%nat) x4 →
    In S754_nan [x0; x1; x2; x3; x4] →
    (box_score key compensated remote req []).1
    = Ok {| status := 200; body := jsonify "predicted_cac" [Lit "nan"] |}.
Proof.
  intros key compensated remote req x0 x1 x2 x3 x4 (m & v & Hj & Hv)
    H0 H1 H2 H3 H4 Hnan.
  rewrite (box_score_valid _ _ _ _ _ _ _ Hj Hv).
  rewrite (predict_box_cac_ok _ _ _ _ _ [] x0 x1 x2 x3 x4) by done.
  by rewrite (fsum_has_nan _ _ _ Hnan).
Qed.

Lemma nan_is_averaged_witness :
  (box_score (Some "sk-test") true
     (scripted ["10.00"; "20.00"; "NaN"; "15.00"; "25.00"])
     (request_for "box") []).1
  = Ok {| status := 200; body := jsonify "predicted_cac" [Lit "nan"] |}.
Proof.
  eapply (nan_is_averaged _ _ _ _ _ _ S754_nan);
    [eexists _, _; split; [reflexivity|apply lookup_singleton_eq]
    |accept_scripted..|].
  right. right. by left.
Defined.

(** ** The shape of [predicted_cac] *)

Lemma string_of_uint_digits d : all_digits (NilEmpty.string_of_uint d) = true.
Proof. induction d; simpl; auto. Qed.

Lemma decimal_digits n :
  all_digits (PyStr.decimal n) = true ∧ PyStr.decimal n ≠ "".
Proof.
  unfold PyStr.decimal, NilZero.string_of_uint.
  destruct (N.to_uint (Z.to_N n)) as [|d|d|d|d|d|d|d|d|d|d];
    (split; [first [reflexivity | apply (string_of_uint_digits d)] | discriminate]).
Qed.

Lemma two_digits_shape n :
  0 ≤ n < 100 →
  all_digits (PyFormat.two_digits n) = true ∧
  String.length (PyFormat.two_digits n) = 2%nat.
Proof.
  intros Hn.
  assert (forallb (fun k => let s := PyFormat.two_digits (Z.of_nat k) in
                            all_digits s && Nat.eqb (String.length s) 2)
            (seq 0 100) = true) as Hall by (vm_compute; reflexivity).
  rewrite forallb_forall in Hall.
  specialize (Hall (Z.to_nat n)). rewrite Z2Nat.id in Hall by lia.
  apply andb_prop in Hall as [Hd Hl]; [|apply in_seq; lia].
  split; [done|]. by apply Nat.eqb_eq.
Qed.

(** [format_2f] gives [nan], a signed [inf], or a signed numeral with two
    fractional digits. *)
Lemma format_2f_shape x :
  PyFormat.format_2f x = "nan" ∨
  (∃ s, PyFormat.format_2f x = PyFormat.sign_str s +:+ "inf") ∨
  (∃ s, two_decimal (PyFormat.sign_str s) (PyFormat.format_2f x)).
Proof.
  destruct x as [s|s| |s m e].
  - right. right. exists s, "0", "00". by repeat split.
  - right. left. by exists s.
  - by left.
  - right. right. exists s. unfold PyFormat.format_2f.
    destruct (decimal_digits (PyFormat.hundredths m e / 100)) as [Hd Hne].
    destruct (two_digits_shape (PyFormat.hundredths m e mod 100)) as [Hf Hl].
    { apply Z.mod_pos_bound. lia. }
    by eexists _, _.
Qed.

(** X10. The [predicted_cac] of a 200 answer is [nan], [inf], [-inf], or an
    optional minus sign, at least one digit, a point and exactly two
    digits. *)
Theorem predicted_cac_shape :
  ∀ key compensated remote req h log,
    box_score key compensated remote req [] = (Ok h, log) → status h = 200 →
    ∃ cac, body h = jsonify "predicted_cac" [Lit cac] ∧
           (cac = "nan" ∨ cac = "inf" ∨ cac = "-inf" ∨
            two_decimal "" cac ∨ two_decimal "-" cac).
Proof.
  intros key compensated remote req h log Hb Hs.
  apply box_score_200_inv in Hb as (m & v & cac & _ & _ & Hp & ->); [|done].
  exists cac. split; [reflexivity|].
  apply predict_box_cac_inv in Hp as (x0 & x1 & x2 & x3 & x4 & H).
  destruct H as (_ & _ & _ & _ & _ & -> & _).
  destruct (format_2f_shape (div (fsum compensated x0 [x1; x2; x3; x4]) (of_Z 5)))
    as [H | [[s H] | [s H]]].
  - by left.
  - rewrite H. destruct s; auto.
  - destruct s; auto.
Qed.

Lemma predicted_cac_shape_witness :
  ∃ cac, body {| status := 200; body := jsonify "predicted_cac" [Lit "20.00"] |}
         = jsonify "predicted_cac" [Lit cac] ∧
         (cac = "nan" ∨ cac = "inf" ∨ cac = "-inf" ∨
          two_decimal "" cac ∨ two_decimal "-" cac).
Proof.
  eapply (predicted_cac_shape (Some "sk-test") false
            (scripted ["10.00"; "20.00"; "30.00"; "15.00"; "25.00"])
            (request_for "box")).
  - vm_compute. reflexivity.
  - reflexivity.
Defined.

(** ** The sign of the mean without compensation *)

Lemma binary_round_aux_signless m e l :
  signless (binary_round_aux prec emax false m e l) = true.
Proof.
  unfold binary_round_aux.
  destruct (shr_fexp prec emax m e l) as [mrs e'].
  destruct (shr_fexp prec emax _ e' loc_Exact) as [mrs' e''].
  destruct (shr_m mrs'); [reflexivity| |reflexivity].
  by destruct (e'' <=? emax - prec).
Qed.

Lemma binary_round_signless m e :
  signless (binary_round prec emax false m e) = true.
Proof.
  unfold binary_round. destruct (shl_align _ _ _) as [mz ez].
  apply binary_round_aux_signless.
Qed.

(** Adding a float that is not below zero keeps the sign bit clear. *)
Lemma add_signless a b :
  signless a = true → ltb b zero = false → signless (add a b) = true.
Proof.
  intros Ha Hb.
  destruct a as [[|]|[|]| |[|] ma ea]; try discriminate;
    destruct b as [[|]|[|]| |[|] mb eb]; try discriminate; try reflexivity.
  unfold add, SFadd. cbn [cond_Zopp Z.add].
  apply binary_round_signless.
Qed.

Lemma fold_left_add_signless l : ∀ a,
  signless a = true → Forall (fun x => ltb x zero = false) l →
  signless (fold_left add l a) = true.
Proof.
  induction l as [|y l IH]; intros a Ha Hl; [done|].
  inversion Hl; subst. cbn [fold_left]. apply IH; [|done].
  by apply add_signless.
Qed.

Lemma div_five_signless a : signless a = true → signless (div a (of_Z 5)) = true.
Proof.
  intros Ha. change (of_Z 5) with (S754_finite false 5629499534213120 (-50)).
  destruct a as [[|]|[|]| |[|] ma ea]; try discriminate; try reflexivity.
  unfold div, SFdiv. destruct (SFdiv_core_binary _ _ _ _ _ _) as [[mz ez] lz].
  apply binary_round_aux_signless.
Qed.

Lemma format_2f_signless x :
  signless x = true →
  PyFormat.format_2f x = "nan" ∨ PyFormat.format_2f x = "inf" ∨
  two_decimal "" (PyFormat.format_2f x).
Proof.
  intros Hx. destruct x as [[|]|[|]| |[|] m e]; try discriminate; auto.
  - right. right. exists "0", "00". by repeat split.
  - right. right. unfold PyFormat.format_2f.
    destruct (decimal_digits (PyFormat.hundredths m e / 100)) as [Hd Hne].
    destruct (two_digits_shape (PyFormat.hundredths m e mod 100)) as [Hf Hl].
    { apply Z.mod_pos_bound. lia. }
    by eexists _, _.
Qed.

(** X11. With the plain [sum] of CPython before 3.12, the [predicted_cac] of
    a 200 answer has no minus sign: it is [nan], [inf], or digits, a point
    and two digits. A content [-0.0] is accepted, and the sum that starts
    from [0] loses its sign. *)
Theorem plain_mean_has_no_sign :
  ∀ key remote req h log,
    box_score key false remote req [] = (Ok h, log) → status h = 200 →
    ∃ cac, body h = jsonify "predicted_cac" [Lit cac] ∧
           (cac = "nan" ∨ cac = "inf" ∨ two_decimal "" cac).
Proof.
  intros key remote req h log Hb Hs.
  apply box_score_200_inv in Hb as (m & v & cac & _ & _ & Hp & ->); [|done].
  exists cac. split; [reflexivity|].
  apply predict_box_cac_inv in Hp as (x0 & x1 & x2 & x3 & x4 & H).
  destruct H as (H0 & H1 & H2 & H3 & H4 & -> & _).
  apply format_2f_signless, div_five_signless. unfold fsum.
  assert (∀ o x, accepted o x → ltb x zero = false) as Hnn.
  { by intros o x (? & ? & ? & _ & _ & _ & _ & _ & Hlt). }
  apply fold_left_add_signless.
  - apply add_signless; [reflexivity|by eapply Hnn].
  - repeat constructor; by eapply Hnn.
Qed.

Lemma plain_mean_has_no_sign_witness :
  ∃ cac, body {| status := 200; body := jsonify "predicted_cac" [Lit "0.00"] |}
         = jsonify "predicted_cac" [Lit cac] ∧
         (cac = "nan" ∨ cac = "inf" ∨ two_decimal "" cac).
Proof.
  eapply (plain_mean_has_no_sign (Some "sk-test")
            (scripted ["-0.0"; "-0.0"; "-0.0"; "-0.0"; "-0.0"])
            (request_for "box")).
  - vm_compute. reflexivity.
  - reflexivity.
Defined.

(** ** The port *)

Lemma int_of_str_raises_ValueError s e :
  PyInt.int_of_str s = Raise e → exn_cls e = ValueError.
Proof.
  unfold PyInt.int_of_str.
  destruct (PyNum.take_sign _) as [neg s1].
  destruct s1 as [|c s1]; [by intros [= <-]|].
  destruct (PyNum.is_underscore c); [by intros [= <-]|].
  destruct (PyInt.scan_digits _ _) as [[ds ok] rest].
  destruct (negb ok || String.eqb ds ""); [by intros [= <-]|].
  destruct (PyInt.max_str_digits <? PyNum.len ds); [by intros [= <-]|].
  destruct (String.eqb _ _); [discriminate|by intros [= <-]].
Qed.

(** X12. When [PORT] is set, [main] never falls back to 5000: with a
    non-empty key it enters [app.run] on [int(PORT)] when [int] accepts the
    value, and whenever [int] rejects the value the script ends with a
    [ValueError] before [app.run]. *)
Theorem port_is_parsed_or_fatal :
  ∀ (environ : gmap string string) p,
    environ !! "PORT" = Some p →
    (∀ n k, PyInt.int_of_str p = Ok n →
            environ !! "OPENAI_API_KEY" = Some k → k ≠ "" →
            main environ = AppRun "0.0.0.0" n) ∧
    ((∃ e, PyInt.int_of_str p = Raise e) →
     ∃ e, main environ = Crash e ∧ exn_cls e = ValueError).
Proof.
  intros environ p Hp. unfold main. rewrite Hp. split.
  - intros n k Hn -> Hk. rewrite Hn.
    destruct k as [|c k]; [done|reflexivity].
  - intros [e He]. rewrite He.
    destruct (negb _); eexists; (split; [reflexivity|]); [reflexivity|].
    by apply (int_of_str_raises_ValueError p).
Qed.

Lemma port_is_parsed_or_fatal_witness :
  main {[ "OPENAI_API_KEY" := "sk-test"; "PORT" := "8080" ]} = AppRun "0.0.0.0" 8080 ∧
  ∃ e, main {[ "OPENAI_API_KEY" := "sk-test"; "PORT" := "http" ]} = Crash e ∧
       exn_cls e = ValueError.
Proof.
  assert (({[ "OPENAI_API_KEY" := "sk-test"; "PORT" := "8080" ]} : gmap string string)
            !! "PORT" = Some "8080") as Hgood by (vm_compute; reflexivity).
  assert (({[ "OPENAI_API_KEY" := "sk-test"; "PORT" := "http" ]} : gmap string string)
            !! "PORT" = Some "http") as Hbad by (vm_compute; reflexivity).
  split.
  - eapply (proj1 (port_is_parsed_or_fatal _ _ Hgood));
      [vm_compute; reflexivity | vm_compute; reflexivity | discriminate].
  - eapply (proj2 (port_is_parsed_or_fatal _ _ Hbad)).
    eexists. vm_compute. reflexivity.
Defined.

(** ** Bodies of an unexpected shape, and what every call carries *)

(** X13. With [future_box_info] in the body, when the first call that is not
    accepted has status 200 and [response.json()] or the reading of
    [choices[0].message.content] raises, the answer is 500 and the error is
    [Prediction error: ] followed by the text of that exception. *)
Theorem unreadable_body_is_reported :
  ∀ key compensated remote req k r e,
    has_future_box_info req → (k < 5)%nat → accepted_before remote k →
    remote k = Ok r → status_code r = 200 →
    (response_json r = Raise e ∨
     ∃ doc, response_json r = Ok doc ∧ stripped_content doc = Raise e) →
    (box_score key compensated remote req []).1
    = Ok {| status := 500;
            body := jsonify "error" ([Lit "Prediction error: "] ++ exn_str e) |}.
Proof.
  intros key compensated remote req k r e (m & v & Hj & Hv) Hk Hacc Hr Hs Hbody.
  assert (judge (remote k) = Raise e) as He.
  { unfold judge. rewrite Hr, Hs. simpl.
    destruct Hbody as [-> | (doc & -> & ->)]; reflexivity. }
  by rewrite (box_score_first_failure _ _ _ _ _ _ k _ Hj Hv Hk Hacc He).
Qed.

Lemma unreadable_body_is_reported_witness :
  (box_score (Some "sk-test") false
     (fun _ => Ok {| status_code := 200; response_text := "";
                     response_json := Ok (JObj {[ "choices" := JArr [] ]}) |})
     (request_for "box") []).1
  = Ok {| status := 500;
          body := jsonify "error"
                    [Lit "Prediction error: "; Lit "list index out of range"] |}.
Proof.
  apply (unreadable_body_is_reported _ _ _ _ 0%nat
           {| status_code := 200; response_text := "";
              response_json := Ok (JObj {[ "choices" := JArr [] ]}) |}
           (mk_exn IndexError [Lit "list index out of range"])).
  - eexists _, _. split; [reflexivity|apply lookup_singleton_eq].
  - lia.
  - intros i Hi. lia.
  - reflexivity.
  - reflexivity.
  - right. eexists. split; [reflexivity|]. vm_compute. reflexivity.
Defined.

(** The log of [box_score] grows by copies of one call. *)
Lemma box_score_log key compensated remote req log :
  ∃ k hd fbi,
    (box_score key compensated remote req log).2
    = log ++ replicate k (the_call key hd fbi).
Proof.
  unfold box_score. unfold_M.
  assert (∃ k hd fbi, log = log ++ replicate k (the_call key hd fbi)) as Hnone.
  { exists 0%nat, JNull, JNull. by rewrite app_nil_r. }
  destruct (get_json req) as [data|e]; [|exact Hnone].
  destruct (negb (truthy data)); simpl; [exact Hnone|].
  destruct (py_contains "future_box_info" data) as [[|]|e]; simpl; [|exact Hnone..].
  destruct (py_get data _ _) as [hd|e]; [|exact Hnone].
  destruct (py_getitem data _) as [v|e]; [|exact Hnone].
  rewrite predict_box_cac_unfold.
  destruct (for_range_log remote (make_headers key) (make_prompt hd v) 5 [] log)
    as (k & _ & _ & Hl).
  exists k, hd, v.
  destruct (for_range 5 _ [] log) as [[cacs|e] log'] eqn:Hloop; simpl in Hl; subst log'.
  - destruct (negb (list_truthy cacs)); [reflexivity|].
    destruct (py_truediv _ _); reflexivity.
  - reflexivity.
Qed.

(** X14. Every call that [box_score] sends, in a run that fails as well,
    goes to the completion URL with the model [gpt-4o], [max_tokens] 10,
    temperature 0.2, seed 42 and the header [Authorization: Bearer key];
    [box_score] does not check the key, and sends [Bearer None] when there
    is none. *)
Theorem every_call_is_the_fixed_call :
  ∀ key compensated remote req c,
    c ∈ (box_score key compensated remote req []).2 →
    url c = OPENAI_API_URL ∧
    headers c !! "Authorization" = Some [Lit "Bearer "; Lit (default "None" key)] ∧
    headers c !! "Content-Type" = Some [Lit "application/json"] ∧
    model (json c) = "gpt-4o" ∧ max_tokens (json c) = 10 ∧
    temperature (json c) = temperature_0_2 ∧ seed (json c) = 42 ∧
    role <$> messages (json c) = ["system"; "user"].
Proof.
  intros key compensated remote req c Hc.
  destruct (box_score_log key compensated remote req []) as (k & hd & fbi & Hl).
  rewrite Hl, app_nil_l in Hc. apply elem_of_replicate in Hc as [-> _].
  repeat split.
Qed.

Lemma every_call_is_the_fixed_call_witness :
  headers (the_call None JNull (JStr "box")) !! "Authorization"
  = Some [Lit "Bearer "; Lit "None"].
Proof.
  refine (proj1 (proj2 (every_call_is_the_fixed_call None false (scripted [])
                          {| get_json := Ok (JObj {[ "historical_data" := JNull;
                                                     "future_box_info" := JStr "box" ]}) |}
                          (the_call None JNull (JStr "box")) _))).
  vm_compute. apply list_elem_of_here.
Defined.
